(** * Open-Meteo client and forecast store: a shallow embedding

    The development follows the two source files.

    - [Py] models the fragment of Python the program relies on: JSON-like
      values, truthiness, the string methods [strip], [lower] and
      [replace], the conversions [float()] and [int()], item assignment,
      and exceptions as an error type.
    - [ClientGeo] embeds [client_geo.py]: [_norm], [_validate_latlon],
      [_rank_results], [geocode_candidates], [geocode_city],
      [get_forecast] and [get_forecast_auto].
    - [Server] embeds [server.py]: the folder name, the load / merge /
      save of the per-location record and [get_weather_forecast].

    Network calls are answered by an [upstream] and logged in the
    [world], next to the files of the record store. *)

From Stdlib Require Import ZArith Floats Ascii String List.
From stdpp Require Import gmap strings list fin_maps pretty sorting.

#[local] Open Scope string_scope.

(* ===================================================================== *)
(** * Python values and builtins *)
(* ===================================================================== *)

Module Py.

(** A value as [json] decodes it ([resp.json()], [json.load]): objects
    have text keys.  Text is modelled over the code points below 256, one
    [ascii] each. *)
#[warnings="-register-all"]
Inductive pyval :=
| PNone
| PBool (b : bool)
| PInt (z : Z)
| PFloat (f : float)
| PStr (s : string)
| PList (l : list pyval)
| PDict (d : gmap string pyval).

Abbreviation pydict := (gmap string pyval).

(** The [ValueError]s the program raises itself are told apart by their
    raise site (the specification names them [InvalidCoordinateError],
    [NotFoundError] and [MissingLocationError]); [BadLiteral] is the
    [ValueError] of [float()] and [int()]. *)
Inductive value_error :=
| InvalidCoordinates (lat lon : float)
| NoGeocodingResult (city : string)
| MissingLocation
| BadLiteral.

Inductive exn :=
| ValueError (why : value_error)
| TypeError
| AttributeError
| KeyError (key : string)
| IndexError
| OverflowError
| UnicodeDecodeError
| OSError
| UpstreamError.

(** A computation that returns or raises. *)
Inductive result (A : Type) :=
| Ok (a : A)
| Raise (e : exn).
Arguments Ok {A} a.
Arguments Raise {A} e.

(** The computation returned. *)
Definition returned {A} (r : result A) : bool :=
  match r with
  | Ok _ => true
  | Raise _ => false
  end.

#[global] Instance result_ret : MRet result := @Ok.
#[global] Instance result_bind : MBind result := fun A B f m =>
  match m with Ok a => f a | Raise e => Raise e end.
#[global] Instance result_fmap : FMap result := fun A B f m =>
  match m with Ok a => Ok (f a) | Raise e => Raise e end.

(** The builtins whose result depends on CPython's number parsing and
    printing are taken as an interface: [int(s)] and [float(s)] on text
    ([None] when they raise [ValueError]), [repr] of a finite float, and
    [str()] of a value that is not text. *)
Class PyBuiltins := {
  int_of_str : string -> option Z;
  float_of_str : string -> option float;
  float_repr : float -> string;
  str_of_nontext : pyval -> string
}.

(** [bool(v)] *)
Definition truthy (v : pyval) : bool :=
  match v with
  | PNone => false
  | PBool b => b
  | PInt z => negb (z =? 0)%Z
  | PFloat f => negb (PrimFloat.eqb f 0%float)
  | PStr s => negb (String.eqb s "")
  | PList l => match l with [] => false | _ :: _ => true end
  | PDict d => negb (size d =? 0)%nat
  end.

(** [a or b] *)
Definition py_or (a b : pyval) : pyval := if truthy a then a else b.

(** ** Text *)

(** [str.isspace] on the code points below 256. *)
Definition is_space (c : ascii) : bool :=
  let n := N_of_ascii c in
  ((9 <=? n) && (n <=? 13) || (28 <=? n) && (n <=? 32)
   || (n =? 133) || (n =? 160))%N.

(** [str.lower] on one code point below 256: A-Z, and the letters
    U+00C0..U+00DE but for the multiplication sign U+00D7. *)
Definition lower_char (c : ascii) : ascii :=
  let n := N_of_ascii c in
  if ((65 <=? n) && (n <=? 90)
      || (192 <=? n) && (n <=? 222) && negb (n =? 215))%N
  then ascii_of_N (n + 32) else c.

Fixpoint lower (s : string) : string :=
  match s with
  | EmptyString => EmptyString
  | String c s' => String (lower_char c) (lower s')
  end.

Fixpoint lstrip (s : string) : string :=
  match s with
  | EmptyString => EmptyString
  | String c s' => if is_space c then lstrip s' else s
  end.

Definition rstrip (s : string) : string := String.rev (lstrip (String.rev s)).

Definition strip (s : string) : string := rstrip (lstrip s).

(** [s.replace(old, new)] for one-character [old] and [new]. *)
Fixpoint replace (old new : ascii) (s : string) : string :=
  match s with
  | EmptyString => EmptyString
  | String c s' =>
      String (if Ascii.eqb c old then new else c) (replace old new s')
  end.

(** ** Numbers *)

(** The float nearest to an integer (ties to even), as [float(int)]
    rounds. *)
Definition float_of_Z (z : Z) : float :=
  SF2Prim (binary_normalize prec emax z 0 false).

(** A finite float truncated toward zero, as [int(float)] does. *)
Definition trunc_float (f : float) : option Z :=
  match Prim2SF f with
  | S754_zero _ => Some 0%Z
  | S754_finite sign m e =>
      let v := Z.shiftl (Zpos m) e in
      Some (if sign then - v else v)%Z
  | S754_infinity _ | S754_nan => None
  end.

(** [float(v)] *)
Definition py_float `{PyBuiltins} (v : pyval) : result float :=
  match v with
  | PFloat f => Ok f
  | PInt z =>
      let f := float_of_Z z in
      if is_infinity f then Raise OverflowError else Ok f
  | PBool b => Ok (if b then 1%float else 0%float)
  | PStr s =>
      match float_of_str s with
      | Some f => Ok f
      | None => Raise (ValueError BadLiteral)
      end
  | PNone | PList _ | PDict _ => Raise TypeError
  end.

(** [int(v)] *)
Definition py_int `{PyBuiltins} (v : pyval) : result Z :=
  match v with
  | PInt z => Ok z
  | PBool b => Ok (if b then 1 else 0)%Z
  | PFloat f =>
      if is_nan f then Raise (ValueError BadLiteral)
      else match trunc_float f with
           | Some z => Ok z
           | None => Raise OverflowError
           end
  | PStr s =>
      match int_of_str s with
      | Some z => Ok z
      | None => Raise (ValueError BadLiteral)
      end
  | PNone | PList _ | PDict _ => Raise TypeError
  end.

(** [str(v)] *)
Definition py_str `{PyBuiltins} (v : pyval) : string :=
  match v with
  | PStr s => s
  | _ => str_of_nontext v
  end.

(** ** Objects *)

(** [d.get(k)] and [d.get(k, dflt)] on a dict. *)
Definition dict_get (d : pydict) (k : string) : pyval := default PNone (d !! k).
Definition dict_get_or (d : pydict) (k : string) (dflt : pyval) : pyval :=
  default dflt (d !! k).

(** [d[k]] on a dict. *)
Definition dict_getitem (d : pydict) (k : string) : result pyval :=
  match d !! k with
  | Some v => Ok v
  | None => Raise (KeyError k)
  end.

(** [v.get(k)] on any value: only a dict has the method. *)
Definition py_get (v : pyval) (k : string) : result pyval :=
  match v with
  | PDict d => Ok (dict_get d k)
  | _ => Raise AttributeError
  end.

(** [str(f)] of a float, which an f-string interpolates. *)
Definition float_str `{PyBuiltins} (f : float) : string :=
  if is_nan f then "nan"
  else if is_infinity f
       then (if PrimFloat.ltb f 0%float then "-inf" else "inf")
       else float_repr f.

(** [v[k]] for a text key. *)
Definition py_getitem (v : pyval) (k : string) : result pyval :=
  match v with
  | PDict d => dict_getitem d k
  | _ => Raise TypeError
  end.

(** The text under which [json.dump] writes a dict key.  A dict in memory
    may hold a key that is not text; the model keeps every dict in the
    form in which it reaches the file, where the later of two entries
    with one text wins as it does when [json.load] reads it back.  Lists
    and dicts are unhashable. *)
Definition json_key `{PyBuiltins} (k : pyval) : result string :=
  match k with
  | PStr s => Ok s
  | PNone => Ok "null"
  | PBool b => Ok (if b then "true" else "false")
  | PInt z => Ok (pretty z)
  | PFloat f =>
      Ok (if is_nan f then "NaN"
          else if is_infinity f
               then (if PrimFloat.ltb f 0%float then "-Infinity" else "Infinity")
               else float_repr f)
  | PList _ | PDict _ => Raise TypeError
  end.

(** [l[i] = v] on a list, negative indices counting from the end. *)
Definition list_setitem (l : list pyval) (i : Z) (v : pyval) : result (list pyval) :=
  let n := Z.of_nat (length l) in
  let j := (if i <? 0 then i + n else i)%Z in
  if ((0 <=? j) && (j <? n))%Z then Ok (<[Z.to_nat j := v]> l) else Raise IndexError.

(** [container[key] = value] *)
Definition py_setitem `{PyBuiltins} (container key value : pyval) : result pyval :=
  match container with
  | PDict d => k ← json_key key; Ok (PDict (<[k := value]> d))
  | PList l =>
      match key with
      | PInt i => PList <$> list_setitem l i value
      | PBool b => PList <$> list_setitem l (if b then 1 else 0)%Z value
      | _ => Raise TypeError
      end
  | _ => Raise TypeError
  end.

(** [d.setdefault(k, dflt)], for its effect on [d]. *)
Definition py_setdefault (v : pyval) (k : string) (dflt : pyval) : result pyval :=
  match v with
  | PDict d =>
      Ok (PDict (match d !! k with Some _ => d | None => <[k := dflt]> d end))
  | _ => Raise AttributeError
  end.

End Py.

(* ===================================================================== *)
(** * The outside world *)
(* ===================================================================== *)

Module Env.
Import Py.

(** The query parameters of the two GET requests. *)
Record geo_query := {
  gq_name : string;
  gq_count : Z;
  gq_language : string;
  gq_format : string;
  gq_countryCode : string
}.

Record forecast_query := {
  fq_latitude : float;
  fq_longitude : float;
  fq_timezone : pyval;
  fq_forecast_days : Z;
  fq_language : string;
  fq_current : string;
  fq_hourly : string;
  fq_daily : string
}.

Inductive call :=
| GeocodeCall (q : geo_query)
| ForecastCall (q : forecast_query).

(** What the two services answer during one invocation:
    [session.get], [raise_for_status] and [resp.json()] together give the
    decoded body, or [None] when one of them raises. *)
Record upstream := {
  geocode_reply : geo_query -> option pyval;
  forecast_reply : forecast_query -> option pyval
}.

Definition reply (body : option pyval) : result pyval :=
  match body with
  | Some data => Ok data
  | None => Raise UpstreamError
  end.

(** A file of the record store: text that [json.load] rejects with
    [JSONDecodeError] (so does a file cut short while it was written);
    bytes that are not UTF-8, at which reading raises
    [UnicodeDecodeError]; a path that [open] refuses to read for another
    reason than absence (a directory, a file without permission); or a
    document. *)
Inductive stored :=
| Corrupt
| Undecodable
| Unreadable
| Json (doc : pyval).

(** What a dump that raises leaves of the file, which opening it had
    emptied: the beginning of the document, or nothing.  That is not
    JSON, and where it ends inside a character it is not UTF-8 either. *)
Inductive cut :=
| CutShort
| CutInCharacter.

Definition left_by (c : cut) : stored :=
  match c with
  | CutShort => Corrupt
  | CutInCharacter => Undecodable
  end.

(** What the file system refuses during one invocation: creating the
    directory at a path, opening the file at a path for writing, and
    writing a document out to it once it is open, with what is then
    left of the file. *)
Record disk_faults := {
  makedirs_fails : string -> bool;
  open_fails : string -> bool;
  dump_fails : string -> pyval -> option cut
}.

(** The requests sent so far, oldest first, the files by path, and the
    faults of the disk, which no step changes. *)
Record world := {
  calls : list call;
  files : gmap string stored;
  disk : disk_faults
}.

(** Code that talks to the services and the store: it reads the
    upstream, threads the world and returns or raises. *)
Definition io (A : Type) : Type := upstream -> world -> result A * world.

#[global] Instance io_ret : MRet io := fun A a _ w => (Ok a, w).
#[global] Instance io_bind : MBind io := fun A B f m u w =>
  match m u w with
  | (Ok a, w') => f a u w'
  | (Raise e, w') => (Raise e, w')
  end.

Definition lift {A} (r : result A) : io A := fun _ w => (r, w).
Definition raise {A} (e : exn) : io A := lift (Raise e).

Definition log (c : call) (w : world) : world :=
  {| calls := calls w ++ [c]; files := files w; disk := disk w |}.

Definition http_geocode (q : geo_query) : io pyval :=
  fun u w => (reply (geocode_reply u q), log (GeocodeCall q) w).

Definition http_forecast (q : forecast_query) : io pyval :=
  fun u w => (reply (forecast_reply u q), log (ForecastCall q) w).

Definition is_geocode (c : call) : bool :=
  match c with GeocodeCall _ => true | ForecastCall _ => false end.

End Env.

(* ===================================================================== *)
(** * client_geo.py *)
(* ===================================================================== *)

Module ClientGeo.
Import Py Env.

(** [GeoResult]; the fields carry the prefix [geo_].  The four optional
    fields hold whatever the raw record has under their key. *)
Record GeoResult := {
  geo_name : string;
  geo_latitude : float;
  geo_longitude : float;
  geo_country_code : string;
  geo_admin1 : pyval;
  geo_admin2 : pyval;
  geo_timezone : pyval;
  geo_population : pyval
}.

(** An [Optional[str]] argument as a value. *)
Definition of_opt (o : option string) : pyval :=
  match o with
  | Some s => PStr s
  | None => PNone
  end.

(** [_norm(s)]: [(s or "").strip().lower()]; a truthy value that is not
    text has no [strip]. *)
Definition _norm (s : pyval) : result string :=
  match py_or s (PStr "") with
  | PStr t => Ok (lower (strip t))
  | _ => Raise AttributeError
  end.

(** The test of [_validate_latlon] and of the loop of
    [geocode_candidates]:
    [-90 <= lat <= 90 and -180 <= lon <= 180]. *)
Definition in_range (lat lon : float) : bool :=
  PrimFloat.leb (-90)%float lat && PrimFloat.leb lat 90%float
  && (PrimFloat.leb (-180)%float lon && PrimFloat.leb lon 180%float).

Definition _validate_latlon (lat lon : float) : result unit :=
  if negb (in_range lat lon)
  then Raise (ValueError (InvalidCoordinates lat lon))
  else Ok tt.

(** [[r for r in results if self._norm(r.get(field)) == target]] *)
Fixpoint keep_matching (field target : string) (results : list pydict)
  : result (list pydict) :=
  match results with
  | [] => Ok []
  | r :: rest =>
      n ← _norm (dict_get r field);
      kept ← keep_matching field target rest;
      Ok (if String.eqb n target then r :: kept else kept)
  end.

(** [filtered or results], and [if filtered: results = filtered]. *)
Definition or_else {A} (filtered results : list A) : list A :=
  match filtered with
  | [] => results
  | _ :: _ => filtered
  end.

(** The sort key [pop] of [_rank_results]. *)
Definition pop `{PyBuiltins} (r : pydict) : Z :=
  match dict_get r "population" with
  | PNone => -1
  | p => match py_int p with
         | Ok n => n
         | Raise _ => -1
         end
  end.

(** [list.sort(key=key, reverse=True)].  Python's sort is stable, also
    under [reverse=True]: elements with equal keys keep their order.  A
    stable sort has one result, which insertion from the right computes:
    an element goes before the first one whose key is not greater. *)
Fixpoint insert_desc {A} (key : A -> Z) (x : A) (l : list A) : list A :=
  match l with
  | [] => [x]
  | y :: l' =>
      if (key x <? key y)%Z then y :: insert_desc key x l' else x :: y :: l'
  end.

Fixpoint sort_desc {A} (key : A -> Z) (l : list A) : list A :=
  match l with
  | [] => []
  | x :: l' => insert_desc key x (sort_desc key l')
  end.

(** Ordered by key, largest first. *)
Definition key_desc {A} (key : A -> Z) (a b : A) : Prop := (key b <= key a)%Z.

(** One [if hint:] block of [_rank_results]: the hint is normalised,
    the records whose [field] normalises to the same text are kept, and
    an empty selection leaves the list as it was. *)
Definition hint_stage (field : string) (hint : option string)
    (results : list pydict) : result (list pydict) :=
  if truthy (of_opt hint) then
    h ← _norm (of_opt hint);
    filtered ← keep_matching field h results;
    Ok (or_else filtered results)
  else Ok results.

(** [_rank_results].  The list is sorted in place and returned; the value
    returned is what the model keeps. *)
Definition _rank_results `{PyBuiltins} (results : list pydict)
    (state county country_code : option string) : result (list pydict) :=
  (* 1) country *)
  results ← hint_stage "country_code" country_code results;
  (* 2) state against admin1 *)
  results ← hint_stage "admin1" state results;
  (* 3) county against admin2 *)
  results ← hint_stage "admin2" county results;
  (* 4) population, descending *)
  Ok (sort_desc pop results).

(** The result of [_norm] on a hint that is given. *)
Definition norm_text (s : string) : string := lower (strip s).

(** A record whose [field] normalises to [target]. *)
Definition matches (field target : string) (r : pydict) : bool :=
  match _norm (dict_get r field) with
  | Ok n => String.eqb n target
  | Raise _ => false
  end.

(** The rule of a filter stage: with a hint, the records that match it
    are kept, unless there is none, and then the list stays as it was. *)
Definition revert_rule (field : string) (hint : option string)
    (before after : list pydict) : Prop :=
  match hint with
  | Some s =>
      if String.eqb s "" then after = before
      else
        let kept := filter (fun r => matches field (norm_text s) r) before in
        (kept <> [] -> after = kept) /\ (kept = [] -> after = before)
  | None => after = before
  end.



(** [_norm] returns on a record's [field]. *)
Definition normable (field : string) (r : pydict) : Prop :=
  exists n, _norm (dict_get r field) = Ok n.

(** The hint fields as [GeoResult] types them: text or nothing (any falsy
    value passes [_norm] like [None]). *)
Definition text_or_falsy (v : pyval) : bool :=
  match py_or v (PStr "") with
  | PStr _ => true
  | _ => false
  end.

Definition hints_typed (r : pydict) : bool :=
  text_or_falsy (dict_get r "country_code")
  && text_or_falsy (dict_get r "admin1")
  && text_or_falsy (dict_get r "admin2").

(** [data.get("results") or []] *)
Definition results_field (data : pyval) : result pyval :=
  raw ← py_get data "results";
  Ok (py_or raw (PList [])).

(** One turn of the loop of [geocode_candidates]: a raw record out of
    range is skipped; a value that is no dict cannot be indexed by text. *)
Definition candidate_of `{PyBuiltins} (city country_code : string) (r : pyval)
  : result (option GeoResult) :=
  match r with
  | PDict r =>
      lat ← dict_getitem r "latitude" ≫= py_float;
      lon ← dict_getitem r "longitude" ≫= py_float;
      if negb (in_range lat lon) then Ok None
      else Ok (Some {|
        geo_name := py_str (dict_get_or r "name" (PStr city));
        geo_latitude := lat;
        geo_longitude := lon;
        geo_country_code := py_str (dict_get_or r "country_code" (PStr country_code));
        geo_admin1 := dict_get r "admin1";
        geo_admin2 := dict_get r "admin2";
        geo_timezone := dict_get r "timezone";
        geo_population := dict_get r "population"
      |})
  | _ => Raise TypeError
  end.

Fixpoint collect_candidates `{PyBuiltins} (city country_code : string)
    (raw : list pyval) : result (list GeoResult) :=
  match raw with
  | [] => Ok []
  | r :: rest =>
      c ← candidate_of city country_code r;
      out ← collect_candidates city country_code rest;
      Ok (match c with Some g => g :: out | None => out end)
  end.

(** The query of [geocode_candidates] and [geocode_city]. *)
Definition geocode_request (city country_code language : string) (count : Z)
  : geo_query :=
  {| gq_name := city; gq_count := count; gq_language := language;
     gq_format := "json"; gq_countryCode := country_code |}.

(** [geocode_candidates].  Iterating a truthy [results] that is no list
    raises [TypeError], at once or at the first index by text. *)
Definition geocode_candidates `{PyBuiltins} (city country_code language : string)
    (count : Z) : io (list GeoResult) :=
  data ← http_geocode (geocode_request city country_code language count);
  raw ← lift (results_field data);
  match raw with
  | PList raw => lift (collect_candidates city country_code raw)
  | _ => raise TypeError
  end.

(** The raw results as the [List[Dict[str, Any]]] that [_rank_results]
    takes.  Every element is read with [r.get], by a filter or by the
    sort key, so one that is no dict raises [AttributeError]; so does
    text or a dict in place of the list; a number there raises
    [TypeError] when a filter iterates it and [AttributeError] at
    [results.sort] otherwise. *)
Fixpoint as_dicts (l : list pyval) : result (list pydict) :=
  match l with
  | [] => Ok []
  | PDict d :: rest => ds ← as_dicts rest; Ok (d :: ds)
  | _ :: _ => Raise AttributeError
  end.

Definition as_results (any_hint : bool) (raw : pyval) : result (list pydict) :=
  match raw with
  | PList l => as_dicts l
  | PStr _ | PDict _ => Raise AttributeError
  | _ => Raise (if any_hint then TypeError else AttributeError)
  end.

(** [geocode_city], from the decoded body on: nothing after the
    request touches the world. *)
Definition choose_city `{PyBuiltins} (city : string) (state county : option string)
    (country_code : string) (data : pyval) : result GeoResult :=
  raw ← results_field data;
  if negb (truthy raw) then Raise (ValueError (NoGeocodingResult city))
  else
    results ← as_results (truthy (of_opt (Some country_code))
                          || truthy (of_opt state)
                          || truthy (of_opt county)) raw;
    ranked ← _rank_results results state county (Some country_code);
    match ranked with
    | [] => Raise IndexError
    | chosen :: _ =>
        lat ← dict_getitem chosen "latitude" ≫= py_float;
        lon ← dict_getitem chosen "longitude" ≫= py_float;
        _ ← _validate_latlon lat lon;
        Ok {|
          geo_name := py_str (dict_get_or chosen "name" (PStr city));
          geo_latitude := lat;
          geo_longitude := lon;
          geo_country_code :=
            py_str (dict_get_or chosen "country_code" (PStr country_code));
          geo_admin1 := dict_get chosen "admin1";
          geo_admin2 := dict_get chosen "admin2";
          geo_timezone := dict_get chosen "timezone";
          geo_population := dict_get chosen "population"
        |}
    end.

(** [geocode_city] *)
Definition geocode_city `{PyBuiltins} (city : string) (state county : option string)
    (country_code language : string) (count : Z) : io GeoResult :=
  data ← http_geocode (geocode_request city country_code language count);
  lift (choose_city city state county country_code data).

(** The default variable lists of [get_forecast]. *)
Definition default_current : string :=
  "temperature_2m,relative_humidity_2m,apparent_temperature,precipitation,weather_code,wind_speed_10m,wind_direction_10m".
Definition default_hourly : string :=
  "temperature_2m,relative_humidity_2m,precipitation,wind_speed_10m".
Definition default_daily : string :=
  "temperature_2m_max,temperature_2m_min,precipitation_sum,wind_speed_10m_max,sunrise,sunset".

(** The query of [get_forecast]. *)
Definition forecast_request (latitude longitude : float) (timezone : pyval)
    (forecast_days : Z) (language : string) : forecast_query :=
  {| fq_latitude := latitude; fq_longitude := longitude;
     fq_timezone := timezone; fq_forecast_days := forecast_days;
     fq_language := language; fq_current := default_current;
     fq_hourly := default_hourly; fq_daily := default_daily |}.

(** [get_forecast]; [float()] of a float is that float. *)
Definition get_forecast (latitude longitude : float) (timezone : pyval)
    (forecast_days : Z) (language : string) : io pyval :=
  _ ← lift (_validate_latlon latitude longitude);
  http_forecast (forecast_request latitude longitude timezone forecast_days language).

(** The two [_resolved_location] objects of [get_forecast_auto]. *)
Definition latlon_location (latitude longitude : float) (timezone : string) : pydict :=
  <["mode" := PStr "latlon"]> (
  <["latitude" := PFloat latitude]> (
  <["longitude" := PFloat longitude]> (
  <["timezone" := PStr timezone]> ∅))).

Definition city_location (geo : GeoResult) (tz : pyval) : pydict :=
  <["mode" := PStr "city"]> (
  <["name" := PStr (geo_name geo)]> (
  <["admin1" := geo_admin1 geo]> (
  <["admin2" := geo_admin2 geo]> (
  <["country_code" := PStr (geo_country_code geo)]> (
  <["latitude" := PFloat (geo_latitude geo)]> (
  <["longitude" := PFloat (geo_longitude geo)]> (
  <["timezone" := tz]> (
  <["population" := geo_population geo]> ∅)))))))).

(** [get_forecast_auto] *)
Definition get_forecast_auto `{PyBuiltins} (city state county : option string)
    (country_code : string) (latitude longitude : option float)
    (timezone : string) (forecast_days : Z) (language : string) : io pyval :=
  match latitude, longitude with
  | Some lat, Some lon =>
      data ← get_forecast lat lon (PStr timezone) forecast_days language;
      lift (py_setitem data (PStr "_resolved_location")
              (PDict (latlon_location lat lon timezone)))
  | _, _ =>
      if negb (truthy (of_opt city)) then raise (ValueError MissingLocation)
      else
        geo ← geocode_city (default "" city) state county country_code language 10;
        let tz := py_or (geo_timezone geo) (PStr timezone) in
        data ← get_forecast (geo_latitude geo) (geo_longitude geo) tz
                 forecast_days language;
        lift (py_setitem data (PStr "_resolved_location")
                (PDict (city_location geo tz)))
  end.


End ClientGeo.

(* ===================================================================== *)
(** * server.py *)
(* ===================================================================== *)

Module Server.
Import Py Env ClientGeo.

Definition METEO_DIR : string := "meteo_data".

(** [os.path.join] of two components on POSIX. *)
Definition starts_with_slash (s : string) : bool :=
  match s with
  | String "/" _ => true
  | _ => false
  end.

Definition path_join (a b : string) : string :=
  if starts_with_slash b then b
  else if String.eqb a "" || starts_with_slash (String.rev a) then a +:+ b
  else a +:+ "/" +:+ b.

(** [f"{c}"] for an [Optional[float]]. *)
Definition format_coord `{PyBuiltins} (c : option float) : string :=
  match c with
  | Some f => float_str f
  | None => "None"
  end.

(** [folder_name], from the arguments of the call. *)
Definition folder_name `{PyBuiltins} (city : option string)
    (latitude longitude : option float) : string :=
  if truthy (of_opt city)
  then replace " " "_" (strip (lower (default "" city)))
  else replace "-" "m" (replace "." "_"
         ("lat_" +:+ format_coord latitude +:+ "_lon_" +:+ format_coord longitude)).

(** The directory of the record and the file in it. *)
Definition record_dir `{PyBuiltins} (city : option string)
    (latitude longitude : option float) : string :=
  path_join METEO_DIR (folder_name city latitude longitude).

Definition file_path `{PyBuiltins} (city : option string)
    (latitude longitude : option float) : string :=
  path_join (record_dir city latitude longitude) "city.json".

(** [os.makedirs(path, exist_ok=True)]: it raises [OSError] where the
    directory cannot be made. *)
Definition makedirs (path : string) : io unit := fun _ w =>
  (if makedirs_fails (disk w) path then Raise OSError else Ok tt, w).

(** The [try] block around [json.load]: [FileNotFoundError] and
    [JSONDecodeError] give [{}], every other exception of the read
    propagates. *)
Definition loaded (file : option stored) : result pyval :=
  match file with
  | Some (Json doc) => Ok doc
  | Some Corrupt | None => Ok (PDict ∅)
  | Some Undecodable => Raise UnicodeDecodeError
  | Some Unreadable => Raise OSError
  end.

Definition load (path : string) : io pyval := fun _ w =>
  (loaded (files w !! path), w).

(** [with open(file_path, "w") as json_file: json.dump(...)].  Opening
    truncates the file; a dump that raises after that leaves a file cut
    short. *)
Definition save (path : string) (doc : pyval) : io unit := fun _ w =>
  if open_fails (disk w) path then (Raise OSError, w)
  else match dump_fails (disk w) path doc with
       | Some c =>
           (Raise OSError,
            {| calls := calls w; files := <[path := left_by c]> (files w);
               disk := disk w |})
       | None =>
           (Ok tt,
            {| calls := calls w; files := <[path := Json doc]> (files w);
               disk := disk w |})
       end.

(** [(forecast.get("current") or {}).get("time") or "unknown_time"] *)
Definition timestamp_of (forecast : pyval) : result pyval :=
  current ← py_get forecast "current";
  time ← py_get (py_or current (PDict ∅)) "time";
  Ok (py_or time (PStr "unknown_time")).

(** The store/update block.  [meteo_info["history"][ts] = forecast]
    changes the dict that [meteo_info["history"]] refers to, which the
    last step writes out. *)
Definition merge `{PyBuiltins} (meteo_info forecast : pyval) : result pyval :=
  meteo_info ← py_setitem meteo_info (PStr "latest") forecast;
  ts ← timestamp_of forecast;
  meteo_info ← py_setdefault meteo_info "history" (PDict ∅);
  history ← py_getitem meteo_info "history";
  history ← py_setitem history ts forecast;
  py_setitem meteo_info (PStr "history") history.

(** [get_weather_forecast] *)
Definition get_weather_forecast `{PyBuiltins} (city state : option string)
    (latitude longitude : option float) (forecast_days : Z) : io pyval :=
  forecast ← get_forecast_auto city state None "BR" latitude longitude
               "America/Sao_Paulo" forecast_days "pt";
  _ ← makedirs (record_dir city latitude longitude);
  let path := file_path city latitude longitude in
  meteo_info ← load path;
  meteo_info ← lift (merge meteo_info forecast);
  _ ← save path meteo_info;
  mret forecast.

(** The fields of a persisted record. *)
Definition latest_of (doc : pyval) : option pyval :=
  match doc with
  | PDict d => d !! "latest"
  | _ => None
  end.

Definition history_of (doc : pyval) : option pydict :=
  match doc with
  | PDict d => match d !! "history" with
               | Some (PDict h) => Some h
               | _ => None
               end
  | _ => None
  end.

(** The history that the update writes into: the one of the record, or
    the [{}] of [setdefault]. *)
Definition history_or_empty (d : pydict) : pyval :=
  default (PDict ∅) (d !! "history").

(** The [_resolved_location] of an outcome. *)
Definition resolved_location_of (outcome : result pyval) : option pydict :=
  match outcome with
  | Ok (PDict d) => match d !! "_resolved_location" with
                    | Some (PDict loc) => Some loc
                    | _ => None
                    end
  | _ => None
  end.

(** The two substitutions of the coordinate branch of [folder_name], as
    one. *)
Definition dots_and_minus (s : string) : string :=
  replace "-" "m" (replace "." "_" s).

(** Text without the character [c]. *)
Fixpoint free_of (c : ascii) (s : string) : bool :=
  match s with
  | EmptyString => true
  | String c' s' => negb (Ascii.eqb c' c) && free_of c s'
  end.

(** Text as Python prints a float or [None]: digits, [.], [-], [+], [e],
    [inf], [nan], [None]; in particular none of the characters that the
    folder name adds or puts in place of others. *)
Definition coordinate_text (s : string) : bool :=
  free_of "_" s && free_of "m" s && free_of "l" s.

End Server.

(* ===================================================================== *)
(** * Sample builtins, services and records *)
(* ===================================================================== *)

Module Samples.
Import Py Env ClientGeo Server.

(** Plain decimal digits, enough for the integers of the examples. *)
Fixpoint digits_value (acc : Z) (s : string) : option Z :=
  match s with
  | EmptyString => Some acc
  | String c s' =>
      match Ascii.is_nat c with
      | Some d => digits_value (10 * acc + Z.of_nat d) s'
      | None => None
      end
  end.

(** Builtins that agree with CPython on the literals of the examples. *)
Definition demo_builtins : PyBuiltins := {|
  int_of_str := fun s =>
    match s with
    | EmptyString => None
    | _ => digits_value 0 s
    end;
  float_of_str := fun s =>
    if String.eqb s "1.5" then Some 1.5%float
    else if String.eqb s "-2.25" then Some (-2.25)%float
    else None;
  float_repr := fun f =>
    if PrimFloat.eqb f 1.5 then "1.5"
    else if PrimFloat.eqb f (-2.25) then "-2.25"
    else if PrimFloat.eqb f 48 then "48.0"
    else if PrimFloat.eqb f 123 then "123.0"
    else "0.0";
  str_of_nontext := fun _ => "None"
|}.

(** A raw geocoding record. *)
Definition raw_record (name admin1 admin2 : string) (population : pyval)
    (latitude longitude : float) : pydict :=
  <["name" := PStr name]> (
  <["country_code" := PStr "BR"]> (
  <["admin1" := PStr admin1]> (
  <["admin2" := PStr admin2]> (
  <["population" := population]> (
  <["latitude" := PFloat latitude]> (
  <["longitude" := PFloat longitude]> ∅)))))).

Definition campinas_sp : pydict :=
  raw_record "Campinas" "Sao Paulo" "Campinas" (PInt 1000000) (-22.90625) (-47.0625).
Definition campinas_go : pydict :=
  raw_record "Campinas" "Goias" "Goiania" (PInt 5000) (-16.5) (-49.25).
Definition campinas_sc : pydict :=
  raw_record "Campinas" "Sao Paulo" "Sul" PNone (-27.5) (-48.5).
Definition off_the_map : pydict :=
  raw_record "Nowhere" "Sao Paulo" "Campinas" (PInt 7) 123 (-47.0625).


Definition forecast_at (time : string) (temperature : Z) : pyval :=
  PDict (<["current" := PDict (<["time" := PStr time]> (
                                <["temperature_2m" := PInt temperature]> ∅))]> ∅).

(** Services that answer every geocoding request with [results] and
    every forecast request with [forecast]. *)
Definition fixed_upstream (results : list pydict) (forecast : pyval) : upstream := {|
  geocode_reply := fun _ => Some (PDict (<["results" := PList (PDict <$> results)]> ∅));
  forecast_reply := fun _ => Some forecast
|}.


(** A disk that refuses nothing, and one on which no document can be
    written out. *)
Definition sound_disk : disk_faults := {|
  makedirs_fails := fun _ => false;
  open_fails := fun _ => false;
  dump_fails := fun _ _ => None
|}.

Definition full_disk : disk_faults := {|
  makedirs_fails := fun _ => false;
  open_fails := fun _ => false;
  dump_fails := fun _ _ => Some CutShort
|}.

Definition fresh_world : world :=
  {| calls := []; files := ∅; disk := sound_disk |}.

End Samples.

(* ===================================================================== *)
(** * Facts about the ranking *)
(* ===================================================================== *)

Import Py Env ClientGeo Server.

(** One step of a computation whose first part has returned. *)
Ltac bind_ok :=
  match goal with
  | |- context [mbind ?f (Ok ?a)] => change (mbind f (Ok a)) with (f a); cbv beta
  end.

Section sorting.
Context {A : Type} (key : A -> Z).

Lemma insert_desc_perm x l : insert_desc key x l ≡ₚ x :: l.
Proof.
  induction l as [|y l IH]; simpl; [done|].
  destruct (key x <? key y)%Z; [|done].
  rewrite IH. apply Permutation_swap.
Qed.

Lemma sort_desc_perm l : sort_desc key l ≡ₚ l.
Proof.
  induction l as [|x l IH]; simpl; [done|].
  by rewrite insert_desc_perm, IH.
Qed.

Lemma sort_desc_length l : length (sort_desc key l) = length l.
Proof. by rewrite sort_desc_perm. Qed.

Lemma insert_desc_sorted x l :
  StronglySorted (key_desc key) l -> StronglySorted (key_desc key) (insert_desc key x l).
Proof.
  induction l as [|y l IH]; simpl; intros Hs.
  - repeat constructor.
  - apply StronglySorted_inv in Hs as [Hs Hy].
    destruct (key x <? key y)%Z eqn:E.
    + apply Z.ltb_lt in E. constructor; [by apply IH|].
      rewrite insert_desc_perm. constructor; [unfold key_desc; lia|done].
    + apply Z.ltb_ge in E. constructor; [by constructor|].
      constructor; [done|].
      eapply Forall_impl; [exact Hy|]. unfold key_desc. intros; lia.
Qed.

Lemma sort_desc_sorted l : StronglySorted (key_desc key) (sort_desc key l).
Proof.
  induction l; simpl; [constructor|by apply insert_desc_sorted].
Qed.

(** A list already in order is left as it is. *)
Lemma sort_desc_fixed l : StronglySorted (key_desc key) l -> sort_desc key l = l.
Proof.
  induction 1 as [|x l Hs IH Hx]; simpl; [done|].
  rewrite IH. destruct Hx as [|y l Hy _]; simpl; [done|].
  unfold key_desc in Hy. by rewrite (proj2 (Z.ltb_ge _ _) Hy).
Qed.

(** Stability: the elements of one key keep their order. *)
Lemma insert_desc_same_key k x l :
  filter (fun y => key y = k) (insert_desc key x l)
  = filter (fun y => key y = k) (x :: l).
Proof.
  induction l as [|y l IH]; simpl; [done|].
  destruct (key x <? key y)%Z eqn:E; [|done].
  apply Z.ltb_lt in E.
  rewrite (filter_cons _ y), IH, !filter_cons.
  repeat case_decide; done || lia.
Qed.

Lemma sort_desc_stable k l :
  filter (fun y => key y = k) (sort_desc key l) = filter (fun y => key y = k) l.
Proof.
  induction l as [|x l IH]; simpl; [done|].
  by rewrite insert_desc_same_key, !filter_cons, IH.
Qed.

(** In an ordered list an earlier element has the larger key. *)
Lemma key_desc_lookup l i j a b :
  StronglySorted (key_desc key) l ->
  l !! i = Some a -> l !! j = Some b -> i < j -> (key b <= key a)%Z.
Proof.
  intros Hs. revert i j. induction Hs as [|x l Hs IH Hx]; intros i j Hi Hj Hlt.
  - by rewrite lookup_nil in Hi.
  - destruct i as [|i], j as [|j]; simpl in *; try lia.
    + injection Hi as ->. rewrite Forall_forall in Hx.
      apply Hx. by eapply list_elem_of_lookup_2.
    + eapply IH; eauto with lia.
Qed.

End sorting.

Section stages.

Lemma filter_none {A} (P : A -> Prop) `{forall x, Decision (P x)} (l : list A) :
  (forall x, x ∈ l -> ~ P x) -> filter P l = [].
Proof.
  induction l as [|x l IH]; intros Hl; [done|].
  rewrite filter_cons, decide_False by (apply Hl; set_solver).
  apply IH. intros; apply Hl; set_solver.
Qed.

Lemma filter_all {A} (P : A -> Prop) `{forall x, Decision (P x)} (l : list A) :
  (forall x, x ∈ l -> P x) -> filter P l = l.
Proof.
  induction l as [|x l IH]; intros Hl; [done|].
  rewrite filter_cons, decide_True by (apply Hl; set_solver).
  f_equal. apply IH. intros; apply Hl; set_solver.
Qed.

Lemma matches_normable field target r : matches field target r -> normable field r.
Proof.
  unfold matches, normable. destruct (_norm _); [eauto|done].
Qed.

(** The comprehension returns exactly when [_norm] succeeds on every
    record, and then it is the filter. *)
Lemma keep_matching_Ok field target results kept :
  keep_matching field target results = Ok kept <->
  Forall (normable field) results
  /\ kept = filter (fun r => matches field target r) results.
Proof.
  revert kept. induction results as [|r rs IH]; intros kept; simpl.
  - split; [intros [= <-]; by split|intros [_ ->]; done].
  - rewrite filter_cons.
    assert (forall n, _norm (dict_get r field) = Ok n ->
              (if decide (matches field target r)
               then r :: filter (fun r => matches field target r) rs
               else filter (fun r => matches field target r) rs)
              = if String.eqb n target
                then r :: filter (fun r => matches field target r) rs
                else filter (fun r => matches field target r) rs) as Hdec.
    { intros n Hn.
      assert (matches field target r = String.eqb n target) as Hm
        by (unfold matches; by rewrite Hn).
      destruct (decide (matches field target r)) as [Hd|Hd];
        rewrite Hm in Hd; destruct (String.eqb n target); simpl in *;
        done. }
    destruct (_norm (dict_get r field)) as [n|e] eqn:En; simpl.
    + rewrite (Hdec n eq_refl).
      destruct (keep_matching field target rs) as [k|e] eqn:Ek; simpl.
      * destruct (IH k) as [[Hall ->] _]; [done|].
        split; [intros [= <-]; split; [constructor; [by exists n|done]|done]|].
        by intros [_ ->].
      * split; [done|]. intros [Hall _]. apply Forall_cons in Hall as [_ Hall].
        destruct (IH (filter (fun r => matches field target r) rs)) as [_ H].
        specialize (H (conj Hall eq_refl)). discriminate H.
    + split; [done|]. intros [Hall _]. apply Forall_cons in Hall as [[n Hn] _].
      congruence.
Qed.

Lemma norm_of_hint h : truthy (of_opt h) = true -> exists s, h = Some s /\ _norm (of_opt h) = Ok (norm_text s).
Proof.
  destruct h as [s|]; simpl; [|done]. intros Hs. exists s. split; [done|].
  unfold _norm, py_or. simpl. by rewrite Hs.
Qed.

(** What a stage returns. *)
Lemma hint_stage_Ok field hint results out :
  hint_stage field hint results = Ok out <->
  match hint with
  | Some s =>
      if String.eqb s "" then out = results
      else Forall (normable field) results
           /\ out = or_else (filter (fun r => matches field (norm_text s) r) results) results
  | None => out = results
  end.
Proof.
  unfold hint_stage. destruct hint as [s|]; simpl; [|naive_solver].
  destruct (String.eqb s "") eqn:Es; simpl; [naive_solver|].
  unfold _norm, py_or; simpl; rewrite Es; simpl.
  destruct (keep_matching field (lower (strip s)) results) as [k|e] eqn:Ek; simpl.
  - apply keep_matching_Ok in Ek as [Hall ->]. unfold norm_text.
    split; [intros [= <-]; by split|by intros [_ ->]].
  - split; [done|]. intros [Hall _].
    assert (keep_matching field (lower (strip s)) results
            = Ok (filter (fun r => matches field (lower (strip s)) r) results)) as H
      by (by apply keep_matching_Ok).
    congruence.
Qed.

Lemma or_else_subseteq {A} (filtered results : list A) :
  filtered ⊆ results -> or_else filtered results ⊆ results.
Proof. destruct filtered; simpl; [set_solver|done]. Qed.

Lemma or_else_nonempty {A} (filtered results : list A) :
  results <> [] -> or_else filtered results <> [].
Proof. by destruct filtered. Qed.

(** A stage only drops records. *)
Lemma hint_stage_subseteq field hint results out :
  hint_stage field hint results = Ok out -> out ⊆ results.
Proof.
  intros H. apply hint_stage_Ok in H. destruct hint as [s|]; [|by subst].
  destruct (String.eqb s ""); [by subst|]. destruct H as [_ ->].
  apply or_else_subseteq. intros r. rewrite list_elem_of_filter. tauto.
Qed.

(** A stage never empties the list. *)
Lemma hint_stage_nonempty field hint results out :
  hint_stage field hint results = Ok out -> results <> [] -> out <> [].
Proof.
  intros H Hne. apply hint_stage_Ok in H. destruct hint as [s|]; [|by subst].
  destruct (String.eqb s ""); [by subst|]. destruct H as [_ ->].
  by apply or_else_nonempty.
Qed.

(** A stage returns on records typed as [GeoResult] types them. *)
Lemma hints_typed_normable r :
  hints_typed r ->
  normable "country_code" r /\ normable "admin1" r /\ normable "admin2" r.
Proof.
  unfold hints_typed, text_or_falsy, normable, _norm.
  intros H. repeat (apply andb_prop_elim in H as [H ?]).
  repeat split.
  - destruct (py_or (dict_get r "country_code") (PStr "")); try done; eauto.
  - destruct (py_or (dict_get r "admin1") (PStr "")); try done; eauto.
  - destruct (py_or (dict_get r "admin2") (PStr "")); try done; eauto.
Qed.

Lemma hint_stage_total field hint results :
  Forall (normable field) results ->
  exists out, hint_stage field hint results = Ok out.
Proof.
  intros Hall. destruct hint as [s|].
  - destruct (String.eqb s "") eqn:Es.
    + exists results. apply hint_stage_Ok. by rewrite Es.
    + eexists. apply hint_stage_Ok. rewrite Es. by split.
  - exists results. by apply hint_stage_Ok.
Qed.

(** Once a stage has run, it leaves every selection from its output
    as it is: the output either matches throughout or not at all. *)
Lemma hint_stage_settled field hint results out sel :
  hint_stage field hint results = Ok out -> sel ⊆ out ->
  hint_stage field hint sel = Ok sel.
Proof.
  intros H Hsub. apply hint_stage_Ok. apply hint_stage_Ok in H.
  destruct hint as [s|]; [|done].
  destruct (String.eqb s ""); [done|]. destruct H as [Hall ->].
  rewrite Forall_forall in Hall.
  set (P := fun r : pydict => matches field (norm_text s) r) in *.
  destruct (filter P results) as [|r0 rs0] eqn:Ef; simpl in Hsub.
  - split; [apply Forall_forall; intros r Hr; apply Hall; set_solver|].
    assert (filter P sel = []) as ->; [|done].
    apply filter_none. intros r Hr HP.
    assert (r ∈ filter P results) as Hin
      by (apply list_elem_of_filter; split; [done|set_solver]).
    rewrite Ef in Hin. by apply not_elem_of_nil in Hin.
  - assert (forall r, r ∈ sel -> P r) as Hsel.
    { intros r Hr. apply Hsub in Hr. rewrite <- Ef in Hr.
      by apply list_elem_of_filter in Hr as [? _]. }
    split.
    + apply Forall_forall. intros r Hr. eapply matches_normable, Hsel, Hr.
    + rewrite (filter_all P sel Hsel). by destruct sel.
Qed.

End stages.

Section ranking.
Context `{PyBuiltins}.

(** [_rank_results] returns exactly when its three stages do. *)
Lemma rank_results_Ok results state county country_code ranked :
  _rank_results results state county country_code = Ok ranked <->
  exists s1 s2 s3,
    hint_stage "country_code" country_code results = Ok s1
    /\ hint_stage "admin1" state s1 = Ok s2
    /\ hint_stage "admin2" county s2 = Ok s3
    /\ ranked = sort_desc pop s3.
Proof.
  unfold _rank_results. split.
  - intros Hr.
    destruct (hint_stage "country_code" _ _) as [s1|] eqn:E1; [|done].
    simpl in Hr.
    destruct (hint_stage "admin1" _ _) as [s2|] eqn:E2; [|done].
    simpl in Hr.
    destruct (hint_stage "admin2" _ _) as [s3|] eqn:E3; [|done].
    simpl in Hr. injection Hr as <-. by exists s1, s2, s3.
  - intros (s1 & s2 & s3 & -> & H2 & H3 & ->). simpl.
    rewrite H2. simpl. by rewrite H3.
Qed.

Lemma rank_results_total results state county country_code :
  Forall (fun r => hints_typed r) results ->
  exists ranked, _rank_results results state county country_code = Ok ranked.
Proof.
  intros Hall.
  assert (forall sel, sel ⊆ results ->
            Forall (normable "country_code") sel
            /\ Forall (normable "admin1") sel
            /\ Forall (normable "admin2") sel) as Hn.
  { intros sel Hsub. rewrite Forall_forall in Hall.
    repeat split; apply Forall_forall; intros r Hr;
      destruct (hints_typed_normable r) as (? & ? & ?); auto. }
  destruct (hint_stage_total "country_code" country_code results) as [s1 H1];
    [by apply Hn|].
  pose proof (hint_stage_subseteq _ _ _ _ H1) as Hs1.
  destruct (hint_stage_total "admin1" state s1) as [s2 H2];
    [by apply Hn|].
  pose proof (hint_stage_subseteq _ _ _ _ H2) as Hs2.
  destruct (hint_stage_total "admin2" county s2) as [s3 H3];
    [apply Hn; by etrans|].
  exists (sort_desc pop s3). apply rank_results_Ok. by exists s1, s2, s3.
Qed.

Lemma rank_results_nonempty results state county country_code ranked :
  _rank_results results state county country_code = Ok ranked ->
  results <> [] -> ranked <> [].
Proof.
  intros (s1 & s2 & s3 & H1 & H2 & H3 & ->)%rank_results_Ok Hne.
  assert (s3 <> []) as Hs3 by eauto using hint_stage_nonempty.
  intros Hnil. apply (f_equal length) in Hnil.
  rewrite sort_desc_length in Hnil. by destruct s3.
Qed.

(** C8: ranking is idempotent.  Ranking the ranked list again, with the
    same three hints, gives the same sequence; where the first ranking
    raises there is nothing to rank again, and the composition raises the
    same exception. *)
Theorem rank_results_idempotent results state county country_code :
  (ranked ← _rank_results results state county country_code;
   _rank_results ranked state county country_code)
  = _rank_results results state county country_code.
Proof.
  destruct (_rank_results results state county country_code)
    as [ranked|e] eqn:Hr; simpl; [|done].
  apply rank_results_Ok in Hr as (s1 & s2 & s3 & H1 & H2 & H3 & ->).
  pose proof (hint_stage_subseteq _ _ _ _ H2) as Hs2.
  pose proof (hint_stage_subseteq _ _ _ _ H3) as Hs3.
  assert (sort_desc pop s3 ⊆ s3) as Hsub
    by (intros r; by rewrite sort_desc_perm).
  apply rank_results_Ok.
  exists (sort_desc pop s3), (sort_desc pop s3), (sort_desc pop s3).
  repeat split.
  - eapply hint_stage_settled; [exact H1|set_solver].
  - eapply hint_stage_settled; [exact H2|set_solver].
  - eapply hint_stage_settled; [exact H3|set_solver].
  - symmetry. apply sort_desc_fixed, sort_desc_sorted.
Qed.

(** ** The population key *)

Lemma pop_unknown r :
  dict_get r "population" = PNone
  \/ (exists e, py_int (dict_get r "population") = Raise e) ->
  pop r = (-1)%Z.
Proof.
  unfold pop. intros [->|[e He]]; [done|].
  destruct (dict_get r "population"); try done; by rewrite He.
Qed.

Lemma pop_known r n :
  dict_get r "population" <> PNone ->
  py_int (dict_get r "population") = Ok n -> pop r = n.
Proof.
  unfold pop. intros Hp Hn.
  destruct (dict_get r "population"); try done; by rewrite Hn.
Qed.

(** C7: stage 4 of the ranking is a stable sort by population, largest
    first, with -1 for a population that is unknown or that [int()]
    rejects.  [_rank_results] returns the sort of what its three filter
    stages leave; the sorted list is a rearrangement of the survivors, in
    descending order of [pop]; records with one population keep their
    input order; a record without a population comes strictly after
    every record whose population is a known number that is not
    negative. *)
Theorem rank_results_by_population (surviving : list pydict) :
  let ranked := sort_desc pop surviving in
  (forall results state county country_code s1 s2,
     hint_stage "country_code" country_code results = Ok s1 ->
     hint_stage "admin1" state s1 = Ok s2 ->
     hint_stage "admin2" county s2 = Ok surviving ->
     _rank_results results state county country_code = Ok ranked)
  /\ ranked ≡ₚ surviving
  /\ StronglySorted (key_desc pop) ranked
  /\ (forall k, filter (fun r => pop r = k) ranked
                = filter (fun r => pop r = k) surviving)
  /\ (forall r, dict_get r "population" = PNone
                \/ (exists e, py_int (dict_get r "population") = Raise e) ->
                pop r = (-1)%Z)
  /\ (forall r n, dict_get r "population" <> PNone ->
                  py_int (dict_get r "population") = Ok n -> pop r = n)
  /\ (forall i j a b n,
        ranked !! i = Some a -> ranked !! j = Some b ->
        dict_get a "population" = PNone ->
        dict_get b "population" <> PNone ->
        py_int (dict_get b "population") = Ok n -> (0 <= n)%Z ->
        j < i).
Proof.
  intros ranked. repeat split.
  - intros * H1 H2 H3. apply rank_results_Ok. by exists s1, s2, surviving.
  - apply sort_desc_perm.
  - apply sort_desc_sorted.
  - intros k. apply sort_desc_stable.
  - apply pop_unknown.
  - apply pop_known.
  - intros i j a b n Hi Hj Ha Hb Hn Hpos.
    assert (pop a = (-1)%Z) as Hpa by (apply pop_unknown; by left).
    assert (pop b = n) as Hpb by (by apply pop_known).
    destruct (decide (j < i)) as [|Hge]; [done|exfalso].
    destruct (decide (i = j)) as [->|Hne].
    + rewrite Hi in Hj. injection Hj as ->. lia.
    + assert (pop b <= pop a)%Z; [|lia].
      eapply (key_desc_lookup pop ranked i j); eauto using sort_desc_sorted.
      lia.
Qed.

(** ** Raised exceptions *)

Lemma keep_matching_Raise field target results e :
  keep_matching field target results = Raise e -> e = AttributeError.
Proof.
  induction results as [|r rs IH]; simpl; [done|].
  unfold _norm at 1.
  destruct (py_or (dict_get r field) (PStr "")); simpl;
    try (by intros [= <-]).
  destruct (keep_matching field target rs); simpl; [done|].
  intros [= <-]. by apply IH.
Qed.

Lemma hint_stage_Raise field hint results e :
  hint_stage field hint results = Raise e -> e = AttributeError.
Proof.
  unfold hint_stage. destruct (truthy (of_opt hint)); [|done].
  destruct hint as [s|]; simpl; unfold _norm, py_or; simpl.
  - destruct (negb (s =? "")%string); simpl.
    + destruct (keep_matching _ _ _) eqn:E; simpl; [done|].
      intros [= <-]. by eapply keep_matching_Raise.
    + destruct (keep_matching _ _ _) eqn:E; simpl; [done|].
      intros [= <-]. by eapply keep_matching_Raise.
  - destruct (keep_matching _ _ _) eqn:E; simpl; [done|].
    intros [= <-]. by eapply keep_matching_Raise.
Qed.

Lemma rank_results_Raise results state county country_code e :
  _rank_results results state county country_code = Raise e ->
  e = AttributeError.
Proof.
  unfold _rank_results.
  destruct (hint_stage "country_code" _ _) as [s1|e1] eqn:E1; simpl;
    [|intros [= <-]; by eapply hint_stage_Raise].
  destruct (hint_stage "admin1" _ _) as [s2|e2] eqn:E2; simpl;
    [|intros [= <-]; by eapply hint_stage_Raise].
  destruct (hint_stage "admin2" _ _) as [s3|e3] eqn:E3; simpl;
    [done|intros [= <-]; by eapply hint_stage_Raise].
Qed.

Lemma as_dicts_length l ds : as_dicts l = Ok ds -> length ds = length l.
Proof.
  revert ds. induction l as [|v l IH]; intros ds; simpl; [by intros [= <-]|].
  destruct v; try done.
  destruct (as_dicts l) as [ds'|]; simpl; [|done].
  intros [= <-]. simpl. f_equal. by apply IH.
Qed.

Lemma as_results_nonempty any_hint raw results :
  truthy raw = true -> as_results any_hint raw = Ok results -> results <> [].
Proof.
  destruct raw; simpl; try done; try (by destruct any_hint).
  intros Hl Hd%as_dicts_length ->. by destruct l.
Qed.

Lemma as_dicts_Raise l e : as_dicts l = Raise e -> e = AttributeError.
Proof.
  induction l as [|v l IH]; simpl; [done|].
  destruct v; try (by intros [= <-]).
  destruct (as_dicts l); simpl; [done|]. intros [= <-]. by apply IH.
Qed.

Lemma as_results_Raise any_hint raw e :
  as_results any_hint raw = Raise e -> e = AttributeError \/ e = TypeError.
Proof.
  destruct raw; simpl; try (destruct any_hint; intros [= <-]; by auto);
    try (intros [= <-]; by auto).
  intros ?%as_dicts_Raise. by left.
Qed.

(** The request of [geocode_city] and what becomes of its reply. *)
Lemma geocode_city_run city state county country_code language count u w :
  geocode_city city state county country_code language count u w
  = (reply (geocode_reply u (geocode_request city country_code language count))
     ≫= choose_city city state county country_code,
     log (GeocodeCall (geocode_request city country_code language count)) w).
Proof.
  unfold geocode_city, http_geocode, mbind, io_bind, lift.
  by destruct (geocode_reply u _).
Qed.

Lemma bind_never {A B} (m : result A) (f : A -> result B) e :
  m <> Raise e -> (forall a, m = Ok a -> f a <> Raise e) -> m ≫= f <> Raise e.
Proof.
  destruct m as [a|e']; simpl; intros Hm Hf; [by apply Hf|].
  intros [= ->]. by apply Hm.
Qed.

Lemma float_item_defined (r : pydict) k :
  dict_getitem r k ≫= py_float <> Raise IndexError.
Proof.
  unfold dict_getitem. destruct (r !! k) as [v|]; simpl; [|done].
  destruct v; simpl; try done.
  - by destruct (is_infinity _).
  - by destruct (float_of_str _).
Qed.

(** The first ranked candidate is always there to be chosen. *)
Lemma choose_city_first_defined city state county country_code data :
  choose_city city state county country_code data <> Raise IndexError.
Proof.
  unfold choose_city. apply bind_never.
  { unfold results_field, py_get. destruct data; simpl; congruence. }
  intros raw _. destruct (truthy raw) eqn:Ht; simpl; [|done].
  apply bind_never.
  { intros [|]%as_results_Raise; done. }
  intros results Er. apply bind_never.
  { by intros ?%rank_results_Raise. }
  intros ranked Ek.
  pose proof (rank_results_nonempty _ _ _ _ _ Ek
                (as_results_nonempty _ _ _ Ht Er)) as Hne.
  destruct ranked as [|chosen rest]; [done|].
  apply bind_never; [apply float_item_defined|intros lat _].
  apply bind_never; [apply float_item_defined|intros lon _].
  unfold _validate_latlon. by destruct (in_range lat lon).
Qed.

(** C10: a list of candidates that is not empty is never ranked to an
    empty list.  Whenever [_rank_results] returns, its result is not
    empty; it does return on candidates whose hint fields are text or
    nothing; and [geocode_city] never fails to find a first ranked
    candidate ([ranked[0]] raises no [IndexError]). *)
Theorem rank_results_keeps_a_candidate results state county country_code :
  results <> [] ->
  (forall ranked,
     _rank_results results state county country_code = Ok ranked ->
     ranked <> [])
  /\ (Forall (fun r => hints_typed r) results ->
      exists ranked,
        _rank_results results state county country_code = Ok ranked
        /\ ranked <> [])
  /\ (forall city cc language count u w,
        (geocode_city city state county cc language count u w).1
        <> Raise IndexError).
Proof.
  intros Hne. repeat split.
  - intros ranked Hr. by eapply rank_results_nonempty.
  - intros Hall.
    destruct (rank_results_total results state county country_code Hall)
      as [ranked Hr].
    exists ranked. split; [done|]. by eapply rank_results_nonempty.
  - intros city cc language count u w. rewrite geocode_city_run. simpl.
    destruct (geocode_reply u _) as [data|]; simpl.
    + apply choose_city_first_defined.
    + done.
Qed.

Lemma hint_stage_rule field hint results out :
  hint_stage field hint results = Ok out -> revert_rule field hint results out.
Proof.
  intros Hs%hint_stage_Ok. unfold revert_rule. destruct hint as [s|]; [|done].
  destruct (String.eqb s ""); [done|]. destruct Hs as [_ ->]. simpl.
  destruct (filter _ results); simpl; split; done.
Qed.

(** C2, as the code has it: each filter stage keeps the records that
    match its hint, compared through [_norm], unless none matches, and
    then it keeps the list it was given.  When the state filter matches
    no record, the list after the state stage is the list after the
    country stage; the ranking still passes it through the county stage,
    so its output is a rearrangement of the county stage of that list,
    and of the list after the country stage itself when no county is
    given. *)
Theorem rank_results_filter_revert results state county country_code ranked :
  _rank_results results state county country_code = Ok ranked ->
  exists s1 s2 s3,
    (hint_stage "country_code" country_code results = Ok s1
     /\ revert_rule "country_code" country_code results s1)
    /\ (hint_stage "admin1" state s1 = Ok s2
        /\ revert_rule "admin1" state s1 s2)
    /\ (hint_stage "admin2" county s2 = Ok s3
        /\ revert_rule "admin2" county s2 s3)
    /\ ranked ≡ₚ s3
    /\ (forall st,
          state = Some st ->
          filter (fun r => matches "admin1" (norm_text st) r) s1 = [] ->
          s2 = s1
          /\ hint_stage "admin2" county s1 = Ok s3
          /\ (truthy (of_opt county) = false -> ranked ≡ₚ s1)).
Proof.
  intros (s1 & s2 & s3 & H1 & H2 & H3 & ->)%rank_results_Ok.
  exists s1, s2, s3.
  repeat split; eauto using hint_stage_rule, sort_desc_perm.
  - pose proof (hint_stage_rule _ _ _ _ H2) as Hrule. subst state.
    unfold revert_rule in Hrule. destruct (String.eqb st ""); [done|].
    by apply Hrule.
  - assert (s2 = s1) as <-; [|done].
    pose proof (hint_stage_rule _ _ _ _ H2) as Hrule. subst state.
    unfold revert_rule in Hrule. destruct (String.eqb st ""); [done|].
    by apply Hrule.
  - intros Hc. rewrite sort_desc_perm.
    assert (s2 = s1) as <-.
    { pose proof (hint_stage_rule _ _ _ _ H2) as Hrule. subst state.
      unfold revert_rule in Hrule. destruct (String.eqb st ""); [done|].
      by apply Hrule. }
    unfold hint_stage in H3. rewrite Hc in H3. by injection H3 as <-.
Qed.

End ranking.

(* ===================================================================== *)
(** * Facts about the resolver *)
(* ===================================================================== *)

Section resolver.
Context `{PyBuiltins}.

Lemma validate_latlon_Ok lat lon :
  _validate_latlon lat lon = Ok tt <-> in_range lat lon = true.
Proof.
  unfold _validate_latlon. destruct (in_range lat lon); simpl; split; done.
Qed.

(** [get_forecast] validates first and sends one request. *)
Lemma get_forecast_run lat lon tz days language u w :
  get_forecast lat lon tz days language u w
  = if in_range lat lon
    then (reply (forecast_reply u (forecast_request lat lon tz days language)),
          log (ForecastCall (forecast_request lat lon tz days language)) w)
    else (Raise (ValueError (InvalidCoordinates lat lon)), w).
Proof.
  unfold get_forecast, mbind, io_bind, lift, _validate_latlon.
  by destruct (in_range lat lon).
Qed.

(** Setting a text key succeeds on dicts only. *)
Lemma py_setitem_text data k v :
  py_setitem data (PStr k) v
  = match data with
    | PDict d => Ok (PDict (<[k := v]> d))
    | _ => Raise TypeError
    end.
Proof. by destruct data. Qed.

Lemma geocode_calls_log c w :
  filter (fun c => is_geocode c) (calls (log c w))
  = (filter (fun c => is_geocode c) (calls w)
     ++ (if is_geocode c then [c] else []))%list.
Proof.
  unfold log. simpl. rewrite filter_app. f_equal.
  rewrite filter_cons. destruct (is_geocode c); by case_decide.
Qed.

Lemma forecast_auto_latlon_run city state county country_code lat lon
    timezone days language u w :
  get_forecast_auto city state county country_code
    (Some lat) (Some lon) timezone days language u w
  = if in_range lat lon
    then (match forecast_reply u
                  (forecast_request lat lon (PStr timezone) days language) with
          | Some (PDict d) =>
              Ok (PDict (<["_resolved_location" :=
                             PDict (latlon_location lat lon timezone)]> d))
          | Some _ => Raise TypeError
          | None => Raise UpstreamError
          end,
          log (ForecastCall
                 (forecast_request lat lon (PStr timezone) days language)) w)
    else (Raise (ValueError (InvalidCoordinates lat lon)), w).
Proof.
  unfold get_forecast_auto. unfold mbind at 1, io_bind at 1.
  rewrite get_forecast_run.
  destruct (in_range lat lon); [|done].
  destruct (forecast_reply u _) as [data|]; simpl; [|done].
  unfold lift. by rewrite py_setitem_text; destruct data.
Qed.

(** C9: with both coordinates given, [get_forecast_auto] never geocodes.
    In range, it sends the one forecast request for exactly these
    coordinates and returns the payload with the [mode=latlon] location
    that carries them; out of range, it raises the [ValueError] of
    [_validate_latlon] (the specification's [InvalidCoordinateError]) and
    the log of requests is as it was. *)
Theorem forecast_auto_latlon city state county country_code lat lon
    timezone days language u w :
  let q := forecast_request lat lon (PStr timezone) days language in
  let run := get_forecast_auto city state county country_code
               (Some lat) (Some lon) timezone days language u w in
  run = (if in_range lat lon
         then (match forecast_reply u q with
               | Some (PDict d) =>
                   Ok (PDict (<["_resolved_location" :=
                                  PDict (latlon_location lat lon timezone)]> d))
               | Some _ => Raise TypeError
               | None => Raise UpstreamError
               end,
               log (ForecastCall q) w)
         else (Raise (ValueError (InvalidCoordinates lat lon)), w))
  /\ latlon_location lat lon timezone !! "mode" = Some (PStr "latlon")
  /\ latlon_location lat lon timezone !! "latitude" = Some (PFloat lat)
  /\ latlon_location lat lon timezone !! "longitude" = Some (PFloat lon)
  /\ filter (fun c => is_geocode c) (calls run.2)
     = filter (fun c => is_geocode c) (calls w).
Proof.
  intros q run.
  pose proof (forecast_auto_latlon_run city state county country_code lat lon
                timezone days language u w) as Hrun.
  fold q in Hrun. fold run in Hrun.
  repeat split; try done.
  rewrite Hrun. destruct (in_range lat lon); [|done].
  unfold snd. rewrite geocode_calls_log. simpl. by rewrite app_nil_r.
Qed.

(** A computation that returns went through each of its steps. *)
Lemma bind_Ok {A B} (m : result A) (f : A -> result B) b :
  m ≫= f = Ok b <-> exists a, m = Ok a /\ f a = Ok b.
Proof.
  destruct m as [a|e]; simpl; split; try done.
  - by exists a.
  - by intros (a' & [= <-] & ?).
  - by intros (a' & ? & ?).
Qed.

(** Whatever [geocode_city] returns has passed [_validate_latlon]. *)
Lemma choose_city_in_range city state county country_code data geo :
  choose_city city state county country_code data = Ok geo ->
  in_range (geo_latitude geo) (geo_longitude geo) = true.
Proof.
  unfold choose_city. intros (raw & _ & Hc)%bind_Ok.
  destruct (truthy raw); simpl in Hc; [|done].
  apply bind_Ok in Hc as (results & _ & Hc).
  apply bind_Ok in Hc as (ranked & _ & Hc).
  destruct ranked as [|chosen rest]; [done|].
  apply bind_Ok in Hc as (lat & _ & Hc).
  apply bind_Ok in Hc as (lon & _ & Hc).
  apply bind_Ok in Hc as ([] & Hv%validate_latlon_Ok & Hc).
  by injection Hc as <-.
Qed.

(** [geocode_candidates] keeps the records in range only. *)
Lemma collect_candidates_in_range city country_code raw out :
  collect_candidates city country_code raw = Ok out ->
  Forall (fun g => in_range (geo_latitude g) (geo_longitude g) = true) out.
Proof.
  revert out. induction raw as [|r raw IH]; intros out; simpl.
  - intros [= <-]. constructor.
  - intros (c & Hc & Hout)%bind_Ok.
    apply bind_Ok in Hout as (rest & Hrest & Hout).
    injection Hout as <-. specialize (IH _ Hrest).
    destruct c as [g|]; [|done]. constructor; [|done].
    unfold candidate_of in Hc. destruct r; try done.
    apply bind_Ok in Hc as (lat & _ & Hc).
    apply bind_Ok in Hc as (lon & _ & Hc).
    destruct (in_range lat lon) eqn:Hr; simpl in Hc; [|done].
    by injection Hc as <-.
Qed.

Lemma geocode_candidates_run city country_code language count u w :
  geocode_candidates city country_code language count u w
  = (data ← reply (geocode_reply u (geocode_request city country_code language count));
     raw ← results_field data;
     match raw with
     | PList raw => collect_candidates city country_code raw
     | _ => Raise TypeError
     end,
     log (GeocodeCall (geocode_request city country_code language count)) w).
Proof.
  unfold geocode_candidates, http_geocode, mbind at 1, io_bind at 1.
  destruct (geocode_reply u _) as [data|]; simpl; [|done].
  unfold mbind at 1, io_bind at 1, lift.
  destruct (results_field data) as [raw|]; simpl; [|done].
  by destruct raw.
Qed.

(** C1, as the code has it: [geocode_city] ranks the raw results, which
    no range filter has seen, and validates the coordinates of the first
    ranked candidate.  It raises the [ValueError] of [_validate_latlon]
    (the specification's [InvalidCoordinateError]) when they are out of
    range and returns the candidate when they are in range, so whatever
    it returns is in range; the range filter is that of
    [geocode_candidates], whose result holds candidates in range only. *)
Theorem geocode_city_revalidates city state county country_code language
    count u w :
  (forall data raw results chosen rest lat lon,
     geocode_reply u (geocode_request city country_code language count)
     = Some data ->
     results_field data = Ok raw -> truthy raw = true ->
     as_results (truthy (of_opt (Some country_code)) || truthy (of_opt state)
                 || truthy (of_opt county)) raw = Ok results ->
     _rank_results results state county (Some country_code)
     = Ok (chosen :: rest) ->
     dict_getitem chosen "latitude" ≫= py_float = Ok lat ->
     dict_getitem chosen "longitude" ≫= py_float = Ok lon ->
     (geocode_city city state county country_code language count u w).1
     = if in_range lat lon
       then Ok {|
         geo_name := py_str (dict_get_or chosen "name" (PStr city));
         geo_latitude := lat;
         geo_longitude := lon;
         geo_country_code :=
           py_str (dict_get_or chosen "country_code" (PStr country_code));
         geo_admin1 := dict_get chosen "admin1";
         geo_admin2 := dict_get chosen "admin2";
         geo_timezone := dict_get chosen "timezone";
         geo_population := dict_get chosen "population" |}
       else Raise (ValueError (InvalidCoordinates lat lon)))
  /\ (forall geo,
        (geocode_city city state county country_code language count u w).1
        = Ok geo ->
        in_range (geo_latitude geo) (geo_longitude geo) = true)
  /\ (forall out,
        (geocode_candidates city country_code language count u w).1 = Ok out ->
        Forall (fun g => in_range (geo_latitude g) (geo_longitude g) = true) out).
Proof.
  repeat split.
  - intros * Hreply Hraw Ht Hres Hrank Hlat Hlon.
    rewrite geocode_city_run, Hreply. unfold fst, reply. bind_ok.
    unfold choose_city. rewrite Hraw. bind_ok. rewrite Ht. cbn [negb].
    rewrite Hres. bind_ok. rewrite Hrank. bind_ok. cbv iota.
    rewrite Hlat. bind_ok. rewrite Hlon. bind_ok.
    unfold _validate_latlon. by destruct (in_range lat lon).
  - intros geo. rewrite geocode_city_run. simpl.
    intros (data & _ & Hc)%bind_Ok. by eapply choose_city_in_range.
  - intros out. rewrite geocode_candidates_run. simpl.
    intros (data & _ & Hc)%bind_Ok.
    apply bind_Ok in Hc as (raw & _ & Hc).
    destruct raw; try done. by eapply collect_candidates_in_range.
Qed.

End resolver.

(* ===================================================================== *)
(** * Facts about the server *)
(* ===================================================================== *)

Section server.
Context `{PyBuiltins}.

(** ** The resolved location *)

(** The city branch: without both coordinates a city is required; one
    geocoding request is sent, then the forecast request for the place
    found, whose coordinates have passed the validation already. *)
Lemma forecast_auto_city_run city state county country_code latitude longitude
    timezone days language u w :
  (latitude = None \/ longitude = None) ->
  get_forecast_auto city state county country_code latitude longitude
    timezone days language u w
  = if truthy (of_opt city)
    then
      let gq := geocode_request (default "" city) country_code language 10 in
      match reply (geocode_reply u gq)
            ≫= choose_city (default "" city) state county country_code with
      | Ok geo =>
          let tz := py_or (geo_timezone geo) (PStr timezone) in
          let fq := forecast_request (geo_latitude geo) (geo_longitude geo) tz
                      days language in
          (match forecast_reply u fq with
           | Some (PDict d) =>
               Ok (PDict (<["_resolved_location" :=
                              PDict (city_location geo tz)]> d))
           | Some _ => Raise TypeError
           | None => Raise UpstreamError
           end,
           log (ForecastCall fq) (log (GeocodeCall gq) w))
      | Raise e => (Raise e, log (GeocodeCall gq) w)
      end
    else (Raise (ValueError MissingLocation), w).
Proof.
  intros Hnone.
  assert (get_forecast_auto city state county country_code latitude longitude
            timezone days language u w
          = (if negb (truthy (of_opt city))
             then raise (ValueError MissingLocation)
             else
               geo ← geocode_city (default "" city) state county country_code
                       language 10;
               let tz := py_or (geo_timezone geo) (PStr timezone) in
               data ← get_forecast (geo_latitude geo) (geo_longitude geo) tz
                        days language;
               lift (py_setitem data (PStr "_resolved_location")
                       (PDict (city_location geo tz)))) u w) as ->.
  { unfold get_forecast_auto.
    destruct Hnone as [-> | ->]; [done|]. by destruct latitude. }
  destruct (truthy (of_opt city)); simpl; [|done].
  unfold mbind at 1, io_bind at 1. rewrite geocode_city_run.
  destruct (reply _ ≫= choose_city _ _ _ _) as [geo|e] eqn:Hgeo; [|done].
  apply bind_Ok in Hgeo as (data & _ & Hgeo%choose_city_in_range).
  unfold mbind at 1, io_bind at 1. rewrite get_forecast_run, Hgeo.
  destruct (forecast_reply u _) as [payload|]; simpl; [|done].
  unfold lift. rewrite py_setitem_text. by destruct payload.
Qed.

Lemma latlon_location_dom lat lon timezone :
  dom (latlon_location lat lon timezone)
  = ({["mode"; "latitude"; "longitude"; "timezone"]} : gset string).
Proof.
  unfold latlon_location. rewrite !dom_insert_L, dom_empty_L. set_solver.
Qed.

Lemma city_location_dom geo tz :
  dom (city_location geo tz)
  = ({["mode"; "name"; "admin1"; "admin2"; "country_code"; "latitude";
       "longitude"; "timezone"; "population"]} : gset string).
Proof.
  unfold city_location. rewrite !dom_insert_L, dom_empty_L. set_solver.
Qed.

(** The client leaves the files and the disk alone. *)
Lemma forecast_auto_store city state county country_code latitude longitude
    timezone days language u w :
  files (get_forecast_auto city state county country_code latitude longitude
           timezone days language u w).2 = files w
  /\ disk (get_forecast_auto city state county country_code latitude longitude
             timezone days language u w).2 = disk w.
Proof.
  assert (latitude = None \/ longitude = None
          \/ exists lat lon, latitude = Some lat /\ longitude = Some lon)
    as [Hn | [Hn | (lat & lon & -> & ->)]].
  { destruct latitude as [lat|], longitude as [lon|];
      [right; right; by exists lat, lon|by right; left|by left|by left]. }
  - rewrite forecast_auto_city_run by auto.
    destruct (truthy (of_opt city)); [|done]. simpl.
    by destruct (reply _ ≫= choose_city _ _ _ _).
  - rewrite forecast_auto_city_run by auto.
    destruct (truthy (of_opt city)); [|done]. simpl.
    by destruct (reply _ ≫= choose_city _ _ _ _).
  - rewrite forecast_auto_latlon_run. by destruct (in_range lat lon).
Qed.

(** A call of [get_forecast_auto] that returns gives the payload that the
    forecast service answered, with the resolved location of its branch
    put in. *)
Lemma forecast_auto_Ok city state county country_code latitude longitude
    timezone days language u w out w' :
  get_forecast_auto city state county country_code latitude longitude
    timezone days language u w = (Ok out, w') ->
  exists payload loc,
    out = PDict (<["_resolved_location" := PDict loc]> payload)
    /\ match latitude, longitude with
       | Some lat, Some lon =>
           forecast_reply u
             (forecast_request lat lon (PStr timezone) days language)
           = Some (PDict payload)
           /\ loc = latlon_location lat lon timezone
       | _, _ =>
           exists geo,
             (geocode_city (default "" city) state county country_code
                language 10 u w).1 = Ok geo
             /\ forecast_reply u
                  (forecast_request (geo_latitude geo) (geo_longitude geo)
                     (py_or (geo_timezone geo) (PStr timezone)) days language)
                = Some (PDict payload)
             /\ loc = city_location geo
                        (py_or (geo_timezone geo) (PStr timezone))
       end.
Proof.
  assert (forall out w',
    (latitude = None \/ longitude = None) ->
    get_forecast_auto city state county country_code latitude longitude
      timezone days language u w = (Ok out, w') ->
    exists payload geo,
      out = PDict (<["_resolved_location" :=
                      PDict (city_location geo
                               (py_or (geo_timezone geo) (PStr timezone)))]>
                     payload)
      /\ (geocode_city (default "" city) state county country_code
            language 10 u w).1 = Ok geo
      /\ forecast_reply u
           (forecast_request (geo_latitude geo) (geo_longitude geo)
              (py_or (geo_timezone geo) (PStr timezone)) days language)
         = Some (PDict payload)) as Hcity.
  { clear out w'. intros out w' Hnone Hrun.
    rewrite forecast_auto_city_run in Hrun by done.
    destruct (truthy (of_opt city)); [|done]. simpl in Hrun.
    rewrite geocode_city_run. unfold fst.
    destruct (reply _ ≫= choose_city _ _ _ _) as [geo|e]; [|done].
    destruct (forecast_reply u _) as [[]|] eqn:Hreply; try done.
    injection Hrun as <- _. by exists d, geo. }
  intros Hrun. destruct latitude as [lat|], longitude as [lon|].
  - rewrite forecast_auto_latlon_run in Hrun.
    destruct (in_range lat lon); [|done].
    destruct (forecast_reply u _) as [[]|]; try done.
    injection Hrun as <- _. by exists d, (latlon_location lat lon timezone).
  - destruct (Hcity _ _ (or_intror eq_refl) Hrun) as (payload & geo & -> & ? & ?).
    exists payload, (city_location geo (py_or (geo_timezone geo) (PStr timezone))).
    split; [done|]. by exists geo.
  - destruct (Hcity _ _ (or_introl eq_refl) Hrun) as (payload & geo & -> & ? & ?).
    exists payload, (city_location geo (py_or (geo_timezone geo) (PStr timezone))).
    split; [done|]. by exists geo.
  - destruct (Hcity _ _ (or_introl eq_refl) Hrun) as (payload & geo & -> & ? & ?).
    exists payload, (city_location geo (py_or (geo_timezone geo) (PStr timezone))).
    split; [done|]. by exists geo.
Qed.

(** [get_weather_forecast], step by step: the forecast is fetched, the
    directory made, the record loaded and merged, the file opened and
    the merged record written out. *)
Lemma get_weather_forecast_run city state latitude longitude days u w :
  get_weather_forecast city state latitude longitude days u w
  = let auto := get_forecast_auto city state None "BR" latitude longitude
                  "America/Sao_Paulo" days "pt" u w in
    let path := file_path city latitude longitude in
    match auto.1 with
    | Raise e => (Raise e, auto.2)
    | Ok forecast =>
        if makedirs_fails (disk w) (record_dir city latitude longitude)
        then (Raise OSError, auto.2)
        else
          match loaded (files w !! path) with
          | Raise e => (Raise e, auto.2)
          | Ok record =>
              match merge record forecast with
              | Raise e => (Raise e, auto.2)
              | Ok doc' =>
                  if open_fails (disk w) path then (Raise OSError, auto.2)
                  else
                    match dump_fails (disk w) path doc' with
                    | Some c =>
                        (Raise OSError,
                         {| calls := calls auto.2;
                            files := <[path := left_by c]> (files w);
                            disk := disk w |})
                    | None =>
                        (Ok forecast,
                         {| calls := calls auto.2;
                            files := <[path := Json doc']> (files w);
                            disk := disk w |})
                    end
              end
          end
    end.
Proof.
  unfold get_weather_forecast. unfold mbind at 1, io_bind at 1.
  destruct (forecast_auto_store city state None "BR" latitude longitude
              "America/Sao_Paulo" days "pt" u w) as [Hfiles Hdisk].
  destruct (get_forecast_auto _ _ _ _ _ _ _ _ _ u w) as [[forecast|e] w1];
    simpl in *; [|done].
  unfold mbind at 1, io_bind at 1, makedirs. rewrite Hdisk.
  destruct (makedirs_fails _ _); [done|].
  unfold mbind at 1, io_bind at 1, load. rewrite Hfiles.
  destruct (loaded _) as [record|e]; [|done].
  unfold mbind at 1, io_bind at 1, lift.
  destruct (merge record forecast) as [doc'|e]; [|done].
  unfold mbind, io_bind, save, mret, io_ret. rewrite Hdisk, Hfiles.
  destruct (open_fails _ _); [done|]. by destruct (dump_fails _ _ _).
Qed.

(** [get_weather_forecast] returns exactly when every step did. *)
Lemma get_weather_forecast_Ok city state latitude longitude days u w forecast w' :
  get_weather_forecast city state latitude longitude days u w = (Ok forecast, w')
  <-> exists w1 record doc',
    get_forecast_auto city state None "BR" latitude longitude
      "America/Sao_Paulo" days "pt" u w = (Ok forecast, w1)
    /\ makedirs_fails (disk w) (record_dir city latitude longitude) = false
    /\ loaded (files w !! file_path city latitude longitude) = Ok record
    /\ merge record forecast = Ok doc'
    /\ open_fails (disk w) (file_path city latitude longitude) = false
    /\ dump_fails (disk w) (file_path city latitude longitude) doc' = None
    /\ w' = {| calls := calls w1;
               files := <[file_path city latitude longitude := Json doc']> (files w);
               disk := disk w |}.
Proof.
  rewrite get_weather_forecast_run. cbv zeta.
  destruct (get_forecast_auto _ _ _ _ _ _ _ _ _ u w) as [[out|e] w1]; simpl.
  2:{ split; [done|]. by intros (? & ? & ? & [=] & _). }
  destruct (makedirs_fails _ _) eqn:Hmk.
  { split; [done|]. by intros (? & ? & ? & _ & [=] & _). }
  destruct (loaded _) as [record|e] eqn:Hload.
  2:{ split; [done|]. by intros (? & ? & ? & _ & _ & [=] & _). }
  destruct (merge record out) as [doc'|e] eqn:Hmerge.
  2:{ split; [done|].
      intros (? & ? & ? & [= <- <-] & _ & [= <-] & Hm & _). congruence. }
  destruct (open_fails _ _) eqn:Hopen.
  { split; [done|]. by intros (? & ? & ? & _ & _ & _ & _ & [=] & _). }
  destruct (dump_fails _ _ _) as [c|] eqn:Hdump.
  { split; [done|].
    intros (? & ? & ? & [= <- <-] & _ & [= <-] & Hm & _ & Hd & _). congruence. }
  split.
  - intros [= <- <-]. by exists w1, record, doc'.
  - intros (? & ? & ? & [= <- <-] & _ & [= <-] & Hm & _ & _ & ->).
    rewrite Hmerge in Hm. by injection Hm as <-.
Qed.

(** C3, as the code has it: what [get_weather_forecast] returns is the
    payload that the forecast service answered, with a
    [_resolved_location] object put in and every other entry as it was.
    With both coordinates given the payload is the answer for these
    coordinates and the object has exactly the fields [mode],
    [latitude], [longitude] and [timezone]; in the city branch the
    payload is the answer for the place that [geocode_city] returned and
    the object has exactly the fields [mode], [name], [admin1],
    [admin2], [country_code], [latitude], [longitude], [timezone] and
    [population]. *)
Theorem resolved_location_fields city state latitude longitude days u w
    forecast w' :
  get_weather_forecast city state latitude longitude days u w = (Ok forecast, w') ->
  exists payload loc,
    forecast = PDict (<["_resolved_location" := PDict loc]> payload)
    /\ (forall k, k <> "_resolved_location" ->
                  <["_resolved_location" := PDict loc]> payload !! k
                  = payload !! k)
    /\ <["_resolved_location" := PDict loc]> payload !! "_resolved_location"
       = Some (PDict loc)
    /\ match latitude, longitude with
       | Some lat, Some lon =>
           forecast_reply u
             (forecast_request lat lon (PStr "America/Sao_Paulo") days "pt")
           = Some (PDict payload)
           /\ loc = latlon_location lat lon "America/Sao_Paulo"
           /\ loc !! "mode" = Some (PStr "latlon")
           /\ dom loc
              = ({["mode"; "latitude"; "longitude"; "timezone"]} : gset string)
       | _, _ =>
           exists geo,
             (geocode_city (default "" city) state None "BR" "pt" 10 u w).1
             = Ok geo
             /\ forecast_reply u
                  (forecast_request (geo_latitude geo) (geo_longitude geo)
                     (py_or (geo_timezone geo) (PStr "America/Sao_Paulo"))
                     days "pt")
                = Some (PDict payload)
             /\ loc = city_location geo
                        (py_or (geo_timezone geo) (PStr "America/Sao_Paulo"))
             /\ loc !! "mode" = Some (PStr "city")
             /\ dom loc
                = ({["mode"; "name"; "admin1"; "admin2"; "country_code";
                     "latitude"; "longitude"; "timezone"; "population"]}
                   : gset string)
       end.
Proof.
  intros (w1 & record & doc' & Hauto & _)%get_weather_forecast_Ok.
  apply forecast_auto_Ok in Hauto as (payload & loc & -> & Hloc).
  exists payload, loc.
  split; [done|]. split; [intros k Hk; by rewrite lookup_insert_ne|].
  split; [apply lookup_insert_eq|].
  assert (forall geo tz, loc = city_location geo tz ->
            loc !! "mode" = Some (PStr "city")
            /\ dom loc
               = ({["mode"; "name"; "admin1"; "admin2"; "country_code";
                    "latitude"; "longitude"; "timezone"; "population"]}
                  : gset string)) as Hcity.
  { intros geo tz ->. split; [done|apply city_location_dom]. }
  destruct latitude as [lat|], longitude as [lon|].
  - destruct Hloc as [Hreply ->].
    split; [done|]. split; [done|]. split; [done|]. apply latlon_location_dom.
  - destruct Hloc as (geo & Hgeo & Hreply & Hloc). exists geo.
    split; [done|]. split; [done|]. split; [done|]. by eapply Hcity.
  - destruct Hloc as (geo & Hgeo & Hreply & Hloc). exists geo.
    split; [done|]. split; [done|]. split; [done|]. by eapply Hcity.
  - destruct Hloc as (geo & Hgeo & Hreply & Hloc). exists geo.
    split; [done|]. split; [done|]. split; [done|]. by eapply Hcity.
Qed.

(** ** The record *)

(** The timestamp of a payload without [current], or whose [current] has
    no [time]. *)
Lemma timestamp_of_absent fd :
  fd !! "current" = None
  \/ (exists c, fd !! "current" = Some (PDict c) /\ c !! "time" = None) ->
  timestamp_of (PDict fd) = Ok (PStr "unknown_time").
Proof.
  unfold timestamp_of, py_get, dict_get. simpl.
  intros [-> | (c & -> & Hc)]; simpl.
  - unfold py_or. simpl. by rewrite lookup_empty.
  - unfold py_or at 2. simpl. destruct (negb _); simpl.
    + by rewrite Hc.
    + by rewrite lookup_empty.
Qed.

Lemma py_setitem_dict (d : pydict) key v :
  py_setitem (PDict d) key v = (k ← json_key key; Ok (PDict (<[k := v]> d))).
Proof. done. Qed.

(** The update of a record that is a dict whose history, if any, is a
    dict. *)
Lemma merge_dict d forecast ts k hd :
  timestamp_of forecast = Ok ts -> json_key ts = Ok k ->
  history_or_empty d = PDict hd ->
  merge (PDict d) forecast
  = Ok (PDict (<["history" := PDict (<[k := forecast]> hd)]>
                 (<["latest" := forecast]> d))).
Proof.
  intros Hts Hk Hh. unfold merge. rewrite py_setitem_text. bind_ok.
  rewrite Hts. bind_ok. unfold py_setdefault. bind_ok.
  assert (<["latest" := forecast]> d !! "history" = d !! "history") as Hl
    by (by rewrite lookup_insert_ne).
  unfold history_or_empty in Hh. rewrite Hl.
  destruct (d !! "history") as [h|] eqn:Ed; simpl in Hh; cbv iota.
  - subst h. unfold py_getitem, dict_getitem. rewrite Hl. bind_ok.
    rewrite py_setitem_dict, Hk. bind_ok. bind_ok.
    by rewrite py_setitem_text.
  - injection Hh as <-. unfold py_getitem, dict_getitem.
    rewrite lookup_insert_eq. bind_ok.
    rewrite py_setitem_dict, Hk. bind_ok. bind_ok.
    rewrite py_setitem_text. by rewrite insert_insert_eq.
Qed.

(** An update that returns has started from a dict, and has written the
    payload as [latest] and into the history. *)
Lemma merge_Ok doc forecast doc' :
  merge doc forecast = Ok doc' ->
  exists d ts h',
    doc = PDict d
    /\ timestamp_of forecast = Ok ts
    /\ py_setitem (history_or_empty d) ts forecast = Ok h'
    /\ doc' = PDict (<["history" := h']> (<["latest" := forecast]> d)).
Proof.
  unfold merge. rewrite py_setitem_text.
  destruct doc; try done. bind_ok.
  intros (ts & Hts & Hm)%bind_Ok. unfold py_setdefault in Hm.
  apply bind_Ok in Hm as (info & [= <-] & Hm).
  assert (<["latest" := forecast]> d !! "history" = d !! "history") as Hl
    by (by rewrite lookup_insert_ne).
  apply bind_Ok in Hm as (h & Hh & Hm).
  apply bind_Ok in Hm as (h' & Hh' & Hm).
  rewrite py_setitem_text in Hm. injection Hm as <-.
  exists d, ts, h'. repeat split; try done.
  - unfold history_or_empty. unfold py_getitem, dict_getitem in Hh.
    destruct (d !! "history") as [h0|] eqn:Ed; rewrite Hl in Hh; simpl.
    + rewrite Hl in Hh. by injection Hh as <-.
    + rewrite lookup_insert_eq in Hh. by injection Hh as <-.
  - rewrite Hl. destruct (d !! "history"); [done|].
    by rewrite insert_insert_eq.
Qed.

(** In a map the entries under one key are that key's one entry. *)
Lemma entries_under_key (h : pydict) k v :
  h !! k = Some v ->
  filter (fun kv : string * pyval => kv.1 = k) (map_to_list h) = [(k, v)].
Proof.
  intros Hk. apply Permutation_singleton_r.
  rewrite <- (insert_id h k v Hk), <- insert_delete_eq.
  rewrite map_to_list_insert by apply lookup_delete_eq.
  rewrite filter_cons, decide_True by done.
  rewrite filter_none; [done|].
  intros [k' v'] Hin%elem_of_map_to_list. simpl. intros ->.
  by rewrite lookup_delete_eq in Hin.
Qed.

Lemma latest_of_merged (d : pydict) h forecast :
  latest_of (PDict (<["history" := h]> (<["latest" := forecast]> d)))
  = Some forecast.
Proof. simpl. by rewrite lookup_insert_ne, lookup_insert_eq. Qed.

Lemma history_of_merged (d : pydict) h forecast :
  history_of (PDict (<["history" := PDict h]> (<["latest" := forecast]> d)))
  = Some h.
Proof. simpl. by rewrite lookup_insert_eq. Qed.

(** A second update under the same key replaces what the first wrote. *)
Lemma merge_again d f1 f2 ts2 k hd :
  timestamp_of f2 = Ok ts2 -> json_key ts2 = Ok k ->
  merge (PDict (<["history" := PDict (<[k := f1]> hd)]> (<["latest" := f1]> d))) f2
  = Ok (PDict (<["history" := PDict (<[k := f2]> hd)]> (<["latest" := f2]> d))).
Proof.
  intros Hts Hk.
  rewrite (merge_dict _ f2 ts2 k (<[k := f1]> hd) Hts Hk).
  2:{ unfold history_or_empty. by rewrite lookup_insert_eq. }
  rewrite insert_insert_eq. do 2 f_equal.
  apply map_eq. intros i.
  destruct (decide (i = "history")) as [->|Hh].
  { by rewrite !lookup_insert_eq. }
  rewrite !(lookup_insert_ne _ "history") by done.
  destruct (decide (i = "latest")) as [->|Hl].
  { by rewrite !lookup_insert_eq. }
  rewrite !(lookup_insert_ne _ "latest") by done.
  by rewrite !lookup_insert_ne.
Qed.

(** C5: the update is last-write-wins, and idempotent under one
    timestamp key.  On a record that is a dict, with a dict as history or
    with none, the update returns the record with the payload as [latest]
    and under the payload's key in the history; the key is
    ["unknown_time"] when the payload has no [current.time].  Updating
    again with the same payload gives the same record; updating with
    another payload of the same key leaves one entry under that key, the
    second payload, which is also [latest], and does not grow the
    history. *)
Theorem merge_last_write_wins d forecast ts k hd :
  timestamp_of forecast = Ok ts -> json_key ts = Ok k ->
  history_or_empty d = PDict hd ->
  let once := PDict (<["history" := PDict (<[k := forecast]> hd)]>
                       (<["latest" := forecast]> d)) in
  merge (PDict d) forecast = Ok once
  /\ latest_of once = Some forecast
  /\ history_of once = Some (<[k := forecast]> hd)
  /\ filter (fun kv : string * pyval => kv.1 = k)
       (map_to_list (<[k := forecast]> hd)) = [(k, forecast)]
  /\ merge once forecast = Ok once
  /\ (forall fd,
        forecast = PDict fd ->
        fd !! "current" = None
        \/ (exists c, fd !! "current" = Some (PDict c) /\ c !! "time" = None) ->
        k = "unknown_time")
  /\ (forall second ts2,
        timestamp_of second = Ok ts2 -> json_key ts2 = Ok k ->
        let twice := PDict (<["history" := PDict (<[k := second]> hd)]>
                              (<["latest" := second]> d)) in
        merge once second = Ok twice
        /\ latest_of twice = Some second
        /\ history_of twice = Some (<[k := second]> hd)
        /\ filter (fun kv : string * pyval => kv.1 = k)
             (map_to_list (<[k := second]> hd)) = [(k, second)]
        /\ size (<[k := second]> hd) = size (<[k := forecast]> hd)).
Proof.
  intros Hts Hk Hh once. repeat split.
  - by apply (merge_dict d forecast ts k hd).
  - apply latest_of_merged.
  - apply history_of_merged.
  - apply entries_under_key, lookup_insert_eq.
  - by apply (merge_again d forecast forecast ts k hd).
  - intros fd -> Habsent. rewrite (timestamp_of_absent fd Habsent) in Hts.
    injection Hts as <-. simpl in Hk. by injection Hk as <-.
  - by apply (merge_again d forecast second ts2 k hd).
  - apply latest_of_merged.
  - apply history_of_merged.
  - apply entries_under_key, lookup_insert_eq.
  - rewrite <- (insert_insert_eq hd k second forecast).
    apply map_size_insert_Some. rewrite lookup_insert_eq. by eexists.
Qed.

(** C6, as the code has it: an update that completes never drops a key
    of the history and always sets [latest] to its payload.  A call of
    [get_weather_forecast] touches no file but the one of its location.
    When it returns, that file holds the update of the record loaded
    from it: [latest] is the payload returned, whatever its timestamp,
    and the history is the loaded one with the payload put under its
    key, so every key of the loaded history is still there and only the
    payload's key has changed its entry.  When it raises, the file is as
    it was, unless it is the write that failed: the file was opened, and
    so emptied, before the dump, and what is left is a file cut short,
    from which the next load gets the empty record, if it gets one. *)
Theorem record_update_invariant city state latitude longitude days u w
    outcome w' :
  get_weather_forecast city state latitude longitude days u w = (outcome, w') ->
  (forall p, p <> file_path city latitude longitude ->
             files w' !! p = files w !! p)
  /\ match outcome with
     | Ok forecast =>
         exists record doc',
           loaded (files w !! file_path city latitude longitude) = Ok record
           /\ merge record forecast = Ok doc'
           /\ files w' !! file_path city latitude longitude = Some (Json doc')
           /\ latest_of doc' = Some forecast
           /\ (forall h,
                 history_of record = Some h ->
                 exists ts k,
                   timestamp_of forecast = Ok ts /\ json_key ts = Ok k
                   /\ history_of doc' = Some (<[k := forecast]> h)
                   /\ dom h ⊆ dom (<[k := forecast]> h)
                   /\ (forall k', k' <> k ->
                                  <[k := forecast]> h !! k' = h !! k')
                   /\ <[k := forecast]> h !! k = Some forecast)
     | Raise e =>
         files w' !! file_path city latitude longitude
         = files w !! file_path city latitude longitude
         \/ (e = OSError
             /\ exists forecast record doc' c,
                  loaded (files w !! file_path city latitude longitude)
                  = Ok record
                  /\ merge record forecast = Ok doc'
                  /\ open_fails (disk w) (file_path city latitude longitude)
                     = false
                  /\ dump_fails (disk w) (file_path city latitude longitude) doc'
                     = Some c
                  /\ files w' !! file_path city latitude longitude
                     = Some (left_by c)
                  /\ (forall r,
                        loaded (files w' !! file_path city latitude longitude)
                        = Ok r ->
                        r = PDict ∅))
     end.
Proof.
  rewrite get_weather_forecast_run. cbv zeta.
  destruct (forecast_auto_store city state None "BR" latitude longitude
              "America/Sao_Paulo" days "pt" u w) as [Hfiles _].
  destruct (get_forecast_auto _ _ _ _ _ _ _ _ _ u w) as [[forecast|e] w1];
    simpl in *.
  2:{ intros [= <- <-]. rewrite Hfiles. split; [done|by left]. }
  destruct (makedirs_fails _ _).
  { intros [= <- <-]. rewrite Hfiles. split; [done|by left]. }
  destruct (loaded _) as [record|e] eqn:Hload.
  2:{ intros [= <- <-]. rewrite Hfiles. split; [done|by left]. }
  destruct (merge record forecast) as [doc'|e] eqn:Hmerge.
  2:{ intros [= <- <-]. rewrite Hfiles. split; [done|by left]. }
  destruct (open_fails _ _) eqn:Hopen.
  { intros [= <- <-]. rewrite Hfiles. split; [done|by left]. }
  destruct (dump_fails _ _ _) as [c|] eqn:Hdump; intros [= <- <-]; simpl.
  - split; [intros p Hp; by rewrite lookup_insert_ne|].
    right. split; [done|]. exists forecast, record, doc', c.
    rewrite lookup_insert_eq. repeat split; try done.
    intros r. destruct c; simpl; [by intros [= <-]|done].
  - split; [intros p Hp; by rewrite lookup_insert_ne|].
    exists record, doc'. split; [done|]. split; [done|].
    split; [apply lookup_insert_eq|].
    pose proof Hmerge as (d & ts & h' & -> & Hts & Hset & ->)%merge_Ok.
    split; [apply latest_of_merged|].
    intros h Hhist.
    assert (history_or_empty d = PDict h) as Hh.
    { unfold history_or_empty. simpl in Hhist.
      destruct (d !! "history") as [[]|]; try done. by injection Hhist as ->. }
    rewrite Hh, py_setitem_dict in Hset.
    apply bind_Ok in Hset as (k & Hk & [= <-]).
    exists ts, k. repeat split; try done.
    + apply history_of_merged.
    + rewrite dom_insert_L. set_solver.
    + intros k' Hne. by rewrite lookup_insert_ne.
    + apply lookup_insert_eq.
Qed.

(** ** The folder name *)

Lemma append_cons c (a b : string) : String c a +:+ b = String c (a +:+ b).
Proof. done. Qed.

Lemma replace_append old new (a b : string) :
  replace old new (a +:+ b) = replace old new a +:+ replace old new b.
Proof.
  induction a as [|c a IH]; [done|].
  rewrite append_cons. simpl. by rewrite append_cons, IH.
Qed.

Lemma dots_and_minus_append (a b : string) :
  dots_and_minus (a +:+ b) = dots_and_minus a +:+ dots_and_minus b.
Proof. unfold dots_and_minus. by rewrite !replace_append. Qed.

Lemma free_of_cons c c' s :
  free_of c (String c' s) = true <-> c' <> c /\ free_of c s = true.
Proof.
  simpl. rewrite andb_true_iff, negb_true_iff.
  destruct (Ascii.eqb_spec c' c); split; intros [? ?]; done.
Qed.

(** On text without ["_"] and ["m"] the substitutions lose nothing. *)
Lemma dots_and_minus_inj (s s' : string) :
  free_of "_" s = true -> free_of "m" s = true ->
  free_of "_" s' = true -> free_of "m" s' = true ->
  dots_and_minus s = dots_and_minus s' -> s = s'.
Proof.
  revert s'. induction s as [|c s IH]; intros [|c' s']; try done.
  intros [Hu Hs]%free_of_cons [Hm Hs2]%free_of_cons
         [Hu' Hs']%free_of_cons [Hm' Hs2']%free_of_cons.
  unfold dots_and_minus. simpl. intros [= Hc Hrest].
  f_equal; [|by apply IH].
  destruct (Ascii.eqb_spec c "."), (Ascii.eqb_spec c' "."); simpl in Hc;
    subst; try done;
    repeat match type of Hc with
           | context [Ascii.eqb ?a ?b] => destruct (Ascii.eqb_spec a b)
           end; subst; done.
Qed.

Lemma dots_and_minus_free_l (s : string) :
  free_of "l" s = true -> free_of "l" (dots_and_minus s) = true.
Proof.
  induction s as [|c s IH]; [done|].
  intros [Hc Hs]%free_of_cons. unfold dots_and_minus. simpl.
  apply andb_true_iff. split; [|by apply IH].
  destruct (Ascii.eqb_spec c "."); simpl.
  - done.
  - destruct (Ascii.eqb_spec c "-"); [done|].
    apply negb_true_iff. by destruct (Ascii.eqb_spec c "l").
Qed.

(** Text without ["l"] ends where ["_lon_"] begins. *)
Lemma lon_separator (a a' b b' : string) :
  free_of "l" a = true -> free_of "l" a' = true ->
  a +:+ "_lon_" +:+ b = a' +:+ "_lon_" +:+ b' -> a = a' /\ b = b'.
Proof.
  revert a'. induction a as [|c a IH]; intros [|c' a'].
  - intros _ _ Heq. change ("_lon_" +:+ b = "_lon_" +:+ b') in Heq.
    by apply (inj (String.app "_lon_")) in Heq.
  - intros _ [Hc Ha]%free_of_cons. rewrite append_cons.
    intros [= <- Heq]. destruct a' as [|c2 a']; [done|].
    apply free_of_cons in Ha as [Hc2 _]. rewrite append_cons in Heq.
    by injection Heq as <- _.
  - intros [Hc Ha]%free_of_cons _. rewrite append_cons.
    intros [= -> Heq]. destruct a as [|c2 a]; [done|].
    apply free_of_cons in Ha as [Hc2 _]. rewrite append_cons in Heq.
    by injection Heq as -> _.
  - intros [Hc Ha]%free_of_cons [Hc' Ha']%free_of_cons.
    rewrite !append_cons. intros [= -> Heq].
    destruct (IH a' Ha Ha' Heq) as [-> ->]. done.
Qed.

Lemma folder_name_coordinates city latitude longitude :
  truthy (of_opt city) = false ->
  folder_name city latitude longitude
  = "lat_" +:+ dots_and_minus (format_coord latitude)
    +:+ "_lon_" +:+ dots_and_minus (format_coord longitude).
Proof.
  intros Hc. unfold folder_name. rewrite Hc.
  fold (dots_and_minus ("lat_" +:+ format_coord latitude +:+ "_lon_"
                        +:+ format_coord longitude)).
  by rewrite !dots_and_minus_append.
Qed.

(** C4, as the code has it: the folder name is made from the arguments
    of the call.  With a city, it is the city lower-cased, stripped and
    with ["_"] for each space, whatever the coordinates (and the state,
    which it does not take).  Without one, it is
    ["lat_<latitude>_lon_<longitude>"] with ["_"] for each ["."] and
    ["m"] for each ["-"], and two such names are equal only when both
    coordinates print alike, for coordinates that print as Python prints
    floats. *)
Theorem folder_name_rule city latitude longitude :
  (forall c latitude' longitude',
     city = Some c -> c <> "" ->
     folder_name city latitude longitude = replace " " "_" (strip (lower c))
     /\ folder_name city latitude' longitude'
        = folder_name city latitude longitude)
  /\ (truthy (of_opt city) = false ->
      folder_name city latitude longitude
      = replace "-" "m" (replace "." "_"
          ("lat_" +:+ format_coord latitude +:+ "_lon_"
           +:+ format_coord longitude))
      /\ forall city' latitude' longitude',
           truthy (of_opt city') = false ->
           coordinate_text (format_coord latitude) ->
           coordinate_text (format_coord longitude) ->
           coordinate_text (format_coord latitude') ->
           coordinate_text (format_coord longitude') ->
           folder_name city' latitude' longitude'
           = folder_name city latitude longitude ->
           format_coord latitude' = format_coord latitude
           /\ format_coord longitude' = format_coord longitude).
Proof.
  split.
  - intros c latitude' longitude' -> Hc. unfold folder_name. simpl.
    destruct (String.eqb_spec c ""); done.
  - intros Hcity. split; [unfold folder_name; by rewrite Hcity|].
    intros city' latitude' longitude' Hcity' Hla Hlo Hla' Hlo' Heq.
    rewrite !folder_name_coordinates in Heq by done.
    unfold coordinate_text in *.
    repeat match goal with
           | Hx : Is_true (_ && _) |- _ => apply andb_prop_elim in Hx as [Hx ?]
           | Hx : Is_true _ |- _ => apply Is_true_true in Hx
           end.
    apply (inj (String.app "lat_")) in Heq.
    apply lon_separator in Heq as [Hlat Hlon];
      [|by apply dots_and_minus_free_l..].
    split; by apply dots_and_minus_inj.
Qed.

End server.

(* ===================================================================== *)
(** * Further facts about the ranking *)
(* ===================================================================== *)

Section ranking_more.
Context `{PyBuiltins}.








End ranking_more.

(* ===================================================================== *)
(** * Further facts about the normalisation of text *)
(* ===================================================================== *)

Section text.



























End text.

(* ===================================================================== *)
(** * More on geocoding and the resolver *)
(* ===================================================================== *)

Section geocoding_more.
Context `{PyBuiltins}.











End geocoding_more.

Section resolver_more.
Context `{PyBuiltins}.







Lemma is_nan_SF (f : float) : is_nan f = true -> Prim2SF f = S754_nan.
Proof.
  unfold is_nan. intros Hn%negb_true_iff. rewrite FloatAxioms.eqb_spec in Hn.
  unfold SFeqb, SFcompare in Hn.
  destruct (Prim2SF f) as [s|s| |s m e]; try done.
  - by destruct s.
  - rewrite Z.compare_refl, Pos.compare_refl in Hn. by destruct s.
Qed.


Lemma nan_not_leb_l (x f : float) : is_nan f = true -> PrimFloat.leb f x = false.
Proof. intros Hn%is_nan_SF. by rewrite FloatAxioms.leb_spec, Hn. Qed.


End resolver_more.

(* ===================================================================== *)
(** * More on the record store *)
(* ===================================================================== *)

Section store_more.
Context `{PyBuiltins}.








End store_more.

Section folders.
Context `{PyBuiltins}.







End folders.

(** ** The ranking on sample candidates *)

(** No candidate named Campinas is in the state Parana: the state stage
    reverts to the two candidates of the country stage and, no county
    being given, the ranking is a rearrangement of them. *)
Lemma rank_results_filter_revert_witness :
  let results := [Samples.campinas_go; Samples.campinas_sp] in
  _rank_results (H := Samples.demo_builtins)
    results (Some "Parana") None (Some "BR")
  = Ok [Samples.campinas_sp; Samples.campinas_go]
  /\ hint_stage "country_code" (Some "BR") results = Ok results
  /\ filter (fun r => matches "admin1" (norm_text "Parana") r) results = []
  /\ hint_stage "admin1" (Some "Parana") results = Ok results
  /\ [Samples.campinas_sp; Samples.campinas_go] ≡ₚ results.
Proof.
  intros results.
  assert (_rank_results (H := Samples.demo_builtins)
            results (Some "Parana") None (Some "BR")
          = Ok [Samples.campinas_sp; Samples.campinas_go]) as Hr by reflexivity.
  assert (hint_stage "country_code" (Some "BR") results = Ok results) as H1
    by reflexivity.
  assert (filter (fun r => matches "admin1" (norm_text "Parana") r) results = [])
    as Hf by reflexivity.
  destruct (rank_results_filter_revert _ _ _ _ _ Hr)
    as (s1 & s2 & s3 & [H1' _] & [H2 _] & _ & _ & Hrevert).
  rewrite H1 in H1'. injection H1' as <-.
  destruct (Hrevert "Parana" eq_refl Hf) as (Hs2 & _ & Hperm).
  rewrite Hs2 in H2.
  split; [exact Hr|]. split; [exact H1|]. split; [exact Hf|].
  split; [exact H2|]. exact (Hperm eq_refl).
Defined.

(** C2 as stated fails when a county is given: no candidate is in state
    Parana, so the state stage reverts to both candidates of the country
    stage, and the county stage then keeps one of the two. *)
Lemma rank_results_filter_revert_counterexample :
  let results := [Samples.campinas_sp; Samples.campinas_sc] in
  hint_stage "country_code" (Some "BR") results = Ok results
  /\ keep_matching "admin1" (norm_text "Parana") results = Ok []
  /\ _rank_results (H := Samples.demo_builtins)
       results (Some "Parana") (Some "Campinas") (Some "BR")
     = Ok [Samples.campinas_sp]
  /\ ~ ([Samples.campinas_sp] ≡ₚ results).
Proof.
  intros results.
  split; [reflexivity|]. split; [reflexivity|]. split; [reflexivity|].
  intros Hp%Permutation_length. discriminate Hp.
Qed.

(** A non-empty candidate list, ranked. *)
Lemma rank_results_keeps_a_candidate_witness :
  [Samples.campinas_go; Samples.campinas_sp] <> []
  /\ forall ranked,
       _rank_results (H := Samples.demo_builtins)
         [Samples.campinas_go; Samples.campinas_sp] (Some "Goias") None (Some "BR")
       = Ok ranked -> ranked <> [].
Proof.
  assert ([Samples.campinas_go; Samples.campinas_sp] <> []) as Hne by discriminate.
  split; [exact Hne|].
  exact (proj1 (rank_results_keeps_a_candidate (H := Samples.demo_builtins)
                  [Samples.campinas_go; Samples.campinas_sp]
                  (Some "Goias") None (Some "BR") Hne)).
Defined.

(** Three candidates, the one without a population first in the input:
    it is ranked last. *)
Lemma rank_results_by_population_witness :
  sort_desc (pop (H := Samples.demo_builtins))
    [Samples.campinas_sc; Samples.campinas_go; Samples.campinas_sp]
  = [Samples.campinas_sp; Samples.campinas_go; Samples.campinas_sc]
  /\ 1 < 2.
Proof.
  split; [reflexivity|].
  refine (proj2 (proj2 (proj2 (proj2 (proj2 (proj2
    (rank_results_by_population (H := Samples.demo_builtins)
       [Samples.campinas_sc; Samples.campinas_go; Samples.campinas_sp]))))))
    2 1 Samples.campinas_sc Samples.campinas_go 5000%Z _ _ _ _ _ _).
  - reflexivity.
  - reflexivity.
  - reflexivity.
  - change (PInt 5000 <> PNone). discriminate.
  - reflexivity.
  - discriminate.
Defined.

(** ** The resolver on sample services *)

(** A geocoding service whose one record is out of range: the fetch of
    candidates drops it, [geocode_city] chooses it and the validation
    raises. *)
Lemma geocode_city_revalidates_counterexample :
  let u := Samples.fixed_upstream [Samples.off_the_map] PNone in
  let B := Samples.demo_builtins in
  (geocode_candidates (H := B) "Nowhere" "BR" "pt" 10 u Samples.fresh_world).1
  = Ok []
  /\ _rank_results (H := B) [Samples.off_the_map] None None (Some "BR")
     = Ok [Samples.off_the_map]
  /\ dict_getitem Samples.off_the_map "latitude" = Ok (PFloat 123)
  /\ in_range 123 (-47.0625) = false
  /\ (geocode_city (H := B) "Nowhere" None None "BR" "pt" 10 u
        Samples.fresh_world).1
     = Raise (ValueError (InvalidCoordinates 123 (-47.0625))).
Proof. repeat split; reflexivity. Qed.

(** The same service with a record in range after the one out of range:
    the more populous record in range is chosen and returned. *)
Lemma geocode_city_revalidates_witness :
  let u := Samples.fixed_upstream [Samples.off_the_map; Samples.campinas_sp] PNone in
  let B := Samples.demo_builtins in
  (geocode_city (H := B) "Campinas" None None "BR" "pt" 10 u
     Samples.fresh_world).1
  = Ok {| geo_name := "Campinas"; geo_latitude := (-22.90625)%float;
          geo_longitude := (-47.0625)%float; geo_country_code := "BR";
          geo_admin1 := PStr "Sao Paulo"; geo_admin2 := PStr "Campinas";
          geo_timezone := PNone; geo_population := PInt 1000000 |}
  /\ in_range (-22.90625) (-47.0625) = true.
Proof.
  intros u B.
  assert ((geocode_city (H := B) "Campinas" None None "BR" "pt" 10 u
             Samples.fresh_world).1
          = Ok {| geo_name := "Campinas"; geo_latitude := (-22.90625)%float;
                  geo_longitude := (-47.0625)%float; geo_country_code := "BR";
                  geo_admin1 := PStr "Sao Paulo"; geo_admin2 := PStr "Campinas";
                  geo_timezone := PNone; geo_population := PInt 1000000 |}) as Hrun
    by reflexivity.
  split; [exact Hrun|].
  exact (proj1 (proj2 (geocode_city_revalidates (H := B) "Campinas" None None
                         "BR" "pt" 10 u Samples.fresh_world)) _ Hrun).
Defined.

(** ** The server on sample services *)

(** A call by coordinates: the location that comes back is in mode
    [latlon] and has none of [name], [admin1], [admin2], [country_code]
    and [population]. *)
Lemma resolved_location_fields_counterexample :
  let u := Samples.fixed_upstream [] (Samples.forecast_at "2024-01-01T12:00" 25) in
  let field k :=
    (fun loc : pydict => loc !! k)
    <$> resolved_location_of
          (get_weather_forecast (H := Samples.demo_builtins) None None
             (Some 1.5%float) (Some (-2.25)%float) 7 u Samples.fresh_world).1 in
  field "mode" = Some (Some (PStr "latlon"))
  /\ field "name" = Some None
  /\ field "admin1" = Some None
  /\ field "admin2" = Some None
  /\ field "country_code" = Some None
  /\ field "population" = Some None.
Proof. repeat split; reflexivity. Qed.

(** A call by city that returns: the payload is the one the forecast
    service answered. *)
Lemma resolved_location_fields_witness :
  let u := Samples.fixed_upstream [Samples.campinas_go; Samples.campinas_sp]
             (Samples.forecast_at "2024-01-01T12:00" 25) in
  exists payload loc,
    (get_weather_forecast (H := Samples.demo_builtins) (Some "Campinas")
       (Some "Sao Paulo") None None 7 u Samples.fresh_world).1
    = Ok (PDict (<["_resolved_location" := PDict loc]> payload))
    /\ Samples.forecast_at "2024-01-01T12:00" 25 = PDict payload
    /\ loc !! "mode" = Some (PStr "city").
Proof.
  intros u.
  assert (returned (get_weather_forecast (H := Samples.demo_builtins)
                      (Some "Campinas") (Some "Sao Paulo") None None 7 u
                      Samples.fresh_world).1 = true) as Hret by reflexivity.
  revert Hret.
  destruct (get_weather_forecast (H := Samples.demo_builtins) (Some "Campinas")
              (Some "Sao Paulo") None None 7 u Samples.fresh_world)
    as [[forecast|e] w'] eqn:Hrun; intros Hret; [|discriminate Hret].
  destruct (resolved_location_fields (H := Samples.demo_builtins) _ _ _ _ _ _ _ _ _ Hrun)
    as (payload & loc & -> & _ & _ & geo & _ & Hreply & _ & Hmode & _).
  exists payload, loc. split; [reflexivity|].
  split; [|exact Hmode].
  change (Some (Samples.forecast_at "2024-01-01T12:00" 25) = Some (PDict payload))
    in Hreply.
  exact (f_equal (default PNone) Hreply).
Defined.

(** Two calls that name the same city and resolve to different places,
    once through the state hint and once through coordinates, share the
    folder name. *)
Lemma folder_name_rule_counterexample :
  let B := Samples.demo_builtins in
  let u := Samples.fixed_upstream [Samples.campinas_go; Samples.campinas_sp]
             (Samples.forecast_at "2024-01-01T12:00" 25) in
  let admin1_of outcome :=
    loc ← resolved_location_of outcome; loc !! "admin1" in
  let latitude_of outcome :=
    loc ← resolved_location_of outcome; loc !! "latitude" in
  admin1_of (get_weather_forecast (H := B) (Some "Campinas") (Some "Sao Paulo")
               None None 7 u Samples.fresh_world).1
  = Some (PStr "Sao Paulo")
  /\ admin1_of (get_weather_forecast (H := B) (Some "Campinas") (Some "Goias")
                  None None 7 u Samples.fresh_world).1
     = Some (PStr "Goias")
  /\ latitude_of (get_weather_forecast (H := B) (Some "Campinas") None
                    (Some 1.5%float) (Some (-2.25)%float) 7 u Samples.fresh_world).1
     = Some (PFloat 1.5)
  /\ latitude_of (get_weather_forecast (H := B) (Some "Campinas") None
                    (Some 48%float) (Some 1.5%float) 7 u Samples.fresh_world).1
     = Some (PFloat 48)
  /\ folder_name (H := B) (Some "Campinas") None None = "campinas"
  /\ folder_name (H := B) (Some "Campinas") (Some 1.5%float) (Some (-2.25)%float)
     = "campinas"
  /\ folder_name (H := B) (Some "Campinas") (Some 48%float) (Some 1.5%float)
     = "campinas".
Proof. repeat split; reflexivity. Qed.

(** Two calls by coordinates: the names differ as the coordinates do. *)
Lemma folder_name_rule_witness :
  let B := Samples.demo_builtins in
  folder_name (H := B) None (Some 1.5%float) (Some (-2.25)%float)
  = "lat_1_5_lon_m2_25"
  /\ (folder_name (H := B) None (Some 1.5%float) (Some 48%float)
      = folder_name (H := B) None (Some 1.5%float) (Some (-2.25)%float) ->
      format_coord (H := B) (Some 48%float)
      = format_coord (H := B) (Some (-2.25)%float)).
Proof.
  intros B. split; [reflexivity|]. intros Heq.
  refine (proj2 (proj2 (proj2 (folder_name_rule (H := B) None (Some 1.5%float)
                                 (Some (-2.25)%float)) eq_refl)
                  None (Some 1.5%float) (Some 48%float) eq_refl _ _ _ _ Heq));
    exact I.
Defined.

(** The scenario of the specification: a payload for 2024-01-01T12:00
    merged into a fresh record, then another payload for the same time. *)
Lemma merge_last_write_wins_witness :
  let B := Samples.demo_builtins in
  let first := Samples.forecast_at "2024-01-01T12:00" 25 in
  let second := Samples.forecast_at "2024-01-01T12:00" 31 in
  timestamp_of first = Ok (PStr "2024-01-01T12:00")
  /\ (once ← merge (H := B) (PDict ∅) first; merge (H := B) once second)
     = Ok (PDict (<["history" := PDict (<["2024-01-01T12:00" := second]> ∅)]>
                    (<["latest" := second]> ∅))).
Proof.
  intros B first second.
  assert (timestamp_of first = Ok (PStr "2024-01-01T12:00")) as Hts
    by reflexivity.
  split; [exact Hts|].
  assert (json_key (H := B) (PStr "2024-01-01T12:00") = Ok "2024-01-01T12:00")
    as Hk by reflexivity.
  assert (history_or_empty ∅ = PDict ∅) as Hh by reflexivity.
  assert (timestamp_of second = Ok (PStr "2024-01-01T12:00")) as Hts2
    by reflexivity.
  destruct (merge_last_write_wins (H := B) ∅ first (PStr "2024-01-01T12:00")
              "2024-01-01T12:00" ∅ Hts Hk Hh)
    as (Honce & _ & _ & _ & _ & _ & Htwice).
  rewrite Honce. bind_ok.
  exact (proj1 (Htwice second (PStr "2024-01-01T12:00") Hts2 Hk)).
Defined.

(** A record that already holds the forecast of 2024-01-02, updated by a
    call whose payload is of 2024-01-01: the earlier payload becomes
    [latest]. *)
Lemma record_update_invariant_witness :
  let B := Samples.demo_builtins in
  let older := Samples.forecast_at "2024-01-01T12:00" 25 in
  let u := Samples.fixed_upstream [Samples.campinas_sp] older in
  let before :=
    PDict (<["history" := PDict (<["2024-01-02T12:00" :=
                                     Samples.forecast_at "2024-01-02T12:00" 31]> ∅)]>
             (<["latest" := Samples.forecast_at "2024-01-02T12:00" 31]> ∅)) in
  let path := file_path (H := B) (Some "Campinas") None None in
  let w := {| calls := []; files := <[path := Json before]> ∅;
              disk := Samples.sound_disk |} in
  let run := get_weather_forecast (H := B) (Some "Campinas") None None None 7 u w in
  let entry_after (time : string) :=
    match files run.2 !! path with
    | Some (Json doc) => h ← history_of doc; h !! time
    | _ => None
    end in
  path = "meteo_data/campinas/city.json"
  /\ entry_after "2024-01-02T12:00"
     = Some (Samples.forecast_at "2024-01-02T12:00" 31)
  /\ exists forecast doc',
       run.1 = Ok forecast
       /\ files run.2 !! path = Some (Json doc')
       /\ latest_of doc' = Some forecast
       /\ entry_after "2024-01-01T12:00" = Some forecast.
Proof.
  intros B older u before path w run entry_after.
  split; [reflexivity|]. split; [reflexivity|].
  assert (returned run.1 = true) as Hret by reflexivity.
  assert (entry_after "2024-01-01T12:00"
          = match run.1 with Ok f => Some f | Raise _ => None end)
    as Hentry by reflexivity.
  revert Hret Hentry. unfold entry_after.
  destruct run as [[forecast|e] w'] eqn:Hrun; intros Hret Hentry;
    [|discriminate Hret].
  destruct (record_update_invariant (H := B) _ _ _ _ _ _ _ _ _ Hrun)
    as (_ & record & doc' & _ & _ & Hfile & Hlatest & _).
  exists forecast, doc'. split; [reflexivity|]. split; [exact Hfile|].
  split; [exact Hlatest|exact Hentry].
Defined.

(** The same update on a disk that fails while the record is written
    out: the call raises, the file is left cut short, and the next load
    finds an empty record, without the entry of 2024-01-02. *)
Lemma record_update_invariant_counterexample :
  let B := Samples.demo_builtins in
  let older := Samples.forecast_at "2024-01-01T12:00" 25 in
  let u := Samples.fixed_upstream [Samples.campinas_sp] older in
  let before :=
    PDict (<["history" := PDict (<["2024-01-02T12:00" :=
                                     Samples.forecast_at "2024-01-02T12:00" 31]> ∅)]>
             (<["latest" := Samples.forecast_at "2024-01-02T12:00" 31]> ∅)) in
  let path := file_path (H := B) (Some "Campinas") None None in
  let w := {| calls := []; files := <[path := Json before]> ∅;
              disk := Samples.full_disk |} in
  let run := get_weather_forecast (H := B) (Some "Campinas") None None None 7 u w in
  (h ← history_of before; h !! "2024-01-02T12:00")
  = Some (Samples.forecast_at "2024-01-02T12:00" 31)
  /\ run.1 = Raise OSError
  /\ files run.2 !! path = Some Corrupt
  /\ loaded (files run.2 !! path) = Ok (PDict ∅)
  /\ history_of (PDict ∅) = None.
Proof. repeat split; reflexivity. Qed.

(** ** Further rankings of sample candidates *)





(** ** Normalisation of sample text *)


(** ** Further runs of the resolver on sample services *)






(** ** Further runs of the server on sample services *)







